(** * The eBay sold-price scraper ([scraper.py]): model and properties

    The pipeline of [scraper.py] is embedded function by function:
    [fetch_listings], [parse_listing], [is_valid_title], [process_price],
    [scrape_ebay_for_term] and [main].  Python's [str] methods and [float]
    arithmetic are embedded first, since the properties of the pipeline
    depend on what [split], [replace], [float], [sum] and [round] return.

    Conventions.
    - A [str] is a [string] whose characters are code points below 256.
    - A [float] is an IEEE 754 binary64 value, as [spec_float] with
      precision 53 and maximal exponent 1024; every operation rounds to
      nearest, ties to even, like the hardware operations CPython uses.
    - A [dict] is an association list in insertion order. *)

From Stdlib Require Import Bool Arith ZArith List Lia.
From Stdlib Require Import Ascii String.
From Stdlib Require Import Floats.SpecFloat.
From Stdlib Require Import Numbers.DecimalString.
From Stdlib Require Import Sorting.Sorted Sorting.Permutation.
Import ListNotations.

Local Open Scope string_scope.
Local Open Scope list_scope.

(* ================================================================= *)
(** ** Python strings *)

Module PyStr.

(** [str.isspace] on one character: the code points below 256 that
    Python treats as whitespace. *)
Definition isspace (c : ascii) : bool :=
  let n := nat_of_ascii c in
  (((9 <=? n) && (n <=? 13)) || ((28 <=? n) && (n <=? 32))
   || (n =? 133) || (n =? 160))%nat.

(** [str.lower] on one character (code points below 256). *)
Definition lower_char (c : ascii) : ascii :=
  let n := nat_of_ascii c in
  if (((65 <=? n) && (n <=? 90))
      || ((192 <=? n) && (n <=? 222) && negb (n =? 215)))%nat
  then ascii_of_nat (n + 32) else c.

Fixpoint lower (s : string) : string :=
  match s with
  | EmptyString => EmptyString
  | String c s' => String (lower_char c) (lower s')
  end.

(** [s.split()]: the maximal runs of non-whitespace characters, left to
    right.  [tok] is the run being read. *)
Fixpoint split_from (tok s : string) : list string :=
  match s with
  | EmptyString => match tok with EmptyString => [] | _ => [tok] end
  | String c s' =>
      if isspace c
      then match tok with
           | EmptyString => split_from EmptyString s'
           | _ => tok :: split_from EmptyString s'
           end
      else split_from (tok ++ String c EmptyString) s'
  end.

Definition split (s : string) : list string := split_from EmptyString s.

(** [s.lstrip()], [s.rstrip()] and [s.strip()]. *)
Fixpoint lstrip (s : string) : string :=
  match s with
  | EmptyString => EmptyString
  | String c s' => if isspace c then lstrip s' else s
  end.

Fixpoint rstrip (s : string) : string :=
  match s with
  | EmptyString => EmptyString
  | String c s' =>
      match rstrip s' with
      | EmptyString => if isspace c then EmptyString else String c EmptyString
      | r => String c r
      end
  end.

Definition strip (s : string) : string := rstrip (lstrip s).

(** [sub in s]. *)
Fixpoint contains (sub s : string) : bool :=
  prefix sub s
  || match s with
     | EmptyString => false
     | String _ s' => contains sub s'
     end.

(** [s.replace(old, new)]: the leftmost non-overlapping occurrences of
    [old] are replaced; [skip] counts the characters of an occurrence that
    are still to be dropped. *)
Fixpoint replace_from (old new : string) (skip : nat) (s : string) : string :=
  match s with
  | EmptyString => if prefix old EmptyString then new else EmptyString
  | String c s' =>
      match skip with
      | S k => replace_from old new k s'
      | O =>
          if prefix old s
          then new ++ match String.length old with
                      | O => String c (replace_from old new 0 s')
                      | S k => replace_from old new k s'
                      end
          else String c (replace_from old new 0 s')
      end
  end.

Definition replace (old new s : string) : string := replace_from old new 0 s.

(** [s.split(sep)] for a one-character separator; never empty. *)
Fixpoint split_on (sep : ascii) (s : string) : list string :=
  match s with
  | EmptyString => [EmptyString]
  | String c s' =>
      if Ascii.eqb c sep then EmptyString :: split_on sep s'
      else match split_on sep s' with
           | t :: ts => String c t :: ts
           | [] => [String c EmptyString]
           end
  end.

(** [sep.join(l)]. *)
Definition join (sep : string) (l : list string) : string := concat sep l.

(** [str(n)] for a non-negative integer. *)
Definition str_of_nat (n : nat) : string :=
  NilZero.string_of_uint (Nat.to_uint n).

End PyStr.

(* ================================================================= *)
(** ** Python floats *)

Module PyFloat.
Import PyStr.

Definition float : Type := spec_float.

Definition prec : Z := 53.
Definition emax : Z := 1024.

Definition nan : float := S754_nan.
Definition inf (neg : bool) : float := S754_infinity neg.

(** [x + y], [x / y] (for [y] other than zero) and [x < y]. *)
Definition add (x y : float) : float := SFadd prec emax x y.
Definition div (x y : float) : float := SFdiv prec emax x y.
Definition ltb (x y : float) : bool := SFltb x y.

(** [float(z)] for an integer [z]: the nearest float. *)
Definition of_Z (z : Z) : float := binary_normalize prec emax z 0 false.

(** The float nearest to [m * 10 ^ e10] for [0 <= m], with the sign
    [neg]: what [float] returns for a decimal numeral and what [round]
    returns for the decimal it has selected. *)
Definition of_decimal (neg : bool) (m e10 : Z) : float :=
  match m with
  | Zpos p =>
      match e10 with
      | Z0 => binary_round prec emax neg p 0
      | Zpos k => binary_round prec emax neg (p * Pos.pow 10 k) 0
      | Zneg k =>
          let '(q, e, l) :=
            SFdiv_core_binary prec emax (Zpos p) 0 (Zpos (Pos.pow 10 k)) 0 in
          binary_round_aux prec emax neg q e l
      end
  | _ => S754_zero neg
  end.

(** *** [float(s)] for a string *)

Definition digit_of (c : ascii) : option Z :=
  let n := nat_of_ascii c in
  if ((48 <=? n) && (n <=? 57))%nat then Some (Z.of_nat (n - 48)) else None.

Definition is_digit (c : ascii) : bool :=
  match digit_of c with Some _ => true | None => false end.

(** Reads a run of decimal digits: the value read after [acc], the number
    of digits read after [n], and the rest of the string. *)
Fixpoint digits (acc : Z) (n : nat) (s : string) : Z * nat * string :=
  match s with
  | String c s' =>
      match digit_of c with
      | Some d => digits (10 * acc + d) (S n) s'
      | None => (acc, n, s)
      end
  | EmptyString => (acc, n, s)
  end.

(** An optional sign: whether it is a minus, and the rest. *)
Definition sign (s : string) : bool * string :=
  match s with
  | String "-" s' => (true, s')
  | String "+" s' => (false, s')
  | _ => (false, s)
  end.

(** The exponent part that may follow the mantissa; the whole rest of the
    string has to be consumed. *)
Definition exponent (s : string) : option Z :=
  match s with
  | EmptyString => Some 0%Z
  | String c s' =>
      if (Ascii.eqb c "e" || Ascii.eqb c "E")%bool then
        let '(neg, s1) := sign s' in
        match digits 0 0 s1 with
        | (_, O, _) => None
        | (v, _, EmptyString) => Some (if neg then (- v)%Z else v)
        | _ => None
        end
      else None
  end.

(** A numeral without its sign: digits, an optional point and more
    digits (one digit at least in all), an optional exponent. *)
Definition unsigned_numeral (neg : bool) (s : string) : option float :=
  let '(ip, ni, s1) := digits 0 0 s in
  let '(m, nf, s2) :=
    match s1 with
    | String "." s1' => digits ip 0 s1'
    | _ => (ip, O, s1)
    end in
  match (ni + nf)%nat with
  | O => None
  | _ =>
      match exponent s2 with
      | Some e => Some (of_decimal neg m (e - Z.of_nat nf))
      | None => None
      end
  end.

(** [inf], [infinity] and [nan] in any letter case, else a numeral. *)
Definition signed_numeral (s : string) : option float :=
  let '(neg, s1) := sign s in
  let w := lower s1 in
  if (String.eqb w "inf" || String.eqb w "infinity")%bool then Some (inf neg)
  else if String.eqb w "nan" then Some nan
  else unsigned_numeral neg s1.

(** Underscores may group digits: each one has a digit on both sides.
    Gives the string without them, or [None] for a misplaced one. *)
Fixpoint drop_underscores (prev : ascii) (s : string) : option string :=
  match s with
  | EmptyString => if Ascii.eqb prev "_" then None else Some EmptyString
  | String c s' =>
      if Ascii.eqb c "_" then
        if is_digit prev then drop_underscores c s' else None
      else if (Ascii.eqb prev "_" && negb (is_digit c))%bool then None
      else match drop_underscores c s' with
           | Some r => Some (String c r)
           | None => None
           end
  end.

(** [float(s)]: [None] stands for the [ValueError] that Python raises. *)
Definition of_string (s : string) : option float :=
  match drop_underscores "000" (strip s) with
  | Some t => signed_numeral t
  | None => None
  end.

(** A float written as Python writes it, for the examples. *)
Definition lit (s : string) : float :=
  match of_string s with Some x => x | None => nan end.

(** *** [round(x, 2)]

    The decimal with two fractional digits nearest to the exact value of
    [x] is selected, a tie going to the even last digit; the result is
    the float nearest to that decimal.  Infinities, NaN and zeros are
    returned as they are. *)

(** The integer nearest to [n / d] for [0 <= n] and [0 < d], ties to
    even. *)
Definition div_half_even (n d : Z) : Z :=
  let q := (n / d)%Z in
  let r := (n mod d)%Z in
  match (2 * r ?= d)%Z with
  | Lt => q
  | Gt => (q + 1)%Z
  | Eq => if Z.even q then q else (q + 1)%Z
  end.

(** The integer nearest to [100 * m * 2 ^ e]. *)
Definition hundredths (m : positive) (e : Z) : Z :=
  match e with
  | Zneg k => div_half_even (100 * Zpos m) (Zpos (Pos.pow 2 k))
  | _ => (100 * Zpos m * 2 ^ e)%Z
  end.

Definition round2 (x : float) : float :=
  match x with
  | S754_finite neg m e => of_decimal neg (hundredths m e) (-2)
  | _ => x
  end.

(** *** [sum(xs)] for floats: the items are added from left to right to
    the start value, the integer [0].  (CPython 3.12 and later also carry
    a correction for the rounding errors of these additions; it is zero
    whenever the additions are exact, as in every example below.) *)
Definition sum (xs : list float) : float := fold_left add xs (of_Z 0).

End PyFloat.

(* ================================================================= *)
(** ** Python dicts: association lists in insertion order *)

Module PyDict.

Definition dict (V : Type) : Type := list (string * V).

Section Ops.
Context {V : Type}.

(** [d.get(k)]. *)
Fixpoint get (k : string) (d : dict V) : option V :=
  match d with
  | [] => None
  | (k', v) :: d' => if String.eqb k k' then Some v else get k d'
  end.

(** [k in d]. *)
Definition mem (k : string) (d : dict V) : bool :=
  match get k d with Some _ => true | None => false end.

(** [d[k] = v]: a present key keeps its place, a new one goes last. *)
Fixpoint set (k : string) (v : V) (d : dict V) : dict V :=
  match d with
  | [] => [(k, v)]
  | (k', v') :: d' =>
      if String.eqb k k' then (k', v) :: d' else (k', v') :: set k v d'
  end.

(** [d.keys()] and [d.values()]. *)
Definition keys (d : dict V) : list string := map fst d.
Definition values (d : dict V) : list V := map snd d.
End Ops.

End PyDict.

(* ================================================================= *)
(** ** Exceptions and the state of a run *)

(** The exceptions that the code of [scraper.py] can meet.
    [ConnectionError] stands for what [requests.get] raises when the page
    cannot be fetched. *)
Inductive exn : Type :=
  | ValueError
  | AttributeError
  | TypeError
  | KeyError
  | ZeroDivisionError
  | ConnectionError.

(** The outcome of a computation: a value, or a raised exception. *)
Inductive result (A : Type) : Type :=
  | Ok (a : A)
  | Raise (e : exn).
Arguments Ok {A} a.
Arguments Raise {A} e.

Definition bind {A B : Type} (r : result A) (k : A -> result B) : result B :=
  match r with
  | Ok a => k a
  | Raise e => Raise e
  end.

Declare Scope py_scope.
Delimit Scope py_scope with py.
Notation "x <- r ;; k" := (bind r (fun x => k))
  (at level 61, r at next level, right associativity) : py_scope.
Notation "' p <- r ;; k" := (bind r (fun x => let 'p := x in k))
  (at level 61, p pattern, r at next level, right associativity) : py_scope.

(** [o.attr] or [o[key]] where [o] may be [None]: [e] is raised then. *)
Definition of_option {A : Type} (e : exn) (o : option A) : result A :=
  match o with
  | Some a => Ok a
  | None => Raise e
  end.

(* ================================================================= *)
(** ** The parsed page, as the scraper observes it *)

(** A tag found by [find]: its [.text], its [.string] (which is [None]
    unless the tag has exactly one child) and its [href] attribute. *)
Record element : Type := {
  text : string;
  string_ : option string;
  href : option string
}.

(** A listing node ([li] of class [s-item s-item__pl-on-bottom]): for each
    class that [parse_listing] searches, what [item.find(class_=...)] gives. *)
Record item : Type := {
  s_item__title : option element;
  s_item__price : option element;
  POSITIVE : option element;
  s_item__link : option element;
  s_item__subtitle : option element
}.

(** The results container (class [srp-results srp-list clearfix]): the
    listing nodes that [find_all] gives for it. *)
Record section : Type := {
  find_all_items : list item
}.

(** A parsed response: what [doc.find] gives for the results container. *)
Record document : Type := {
  srp_results : option section
}.

(** What [requests.get(url)] does: it returns a response, or raises. *)
Inductive fetched : Type :=
  | Response (doc : document)
  | Unreachable (e : exn).

(** The remote service during a run: what each requested URL gives. *)
Definition network : Type := string -> fetched.

(* ================================================================= *)
(** ** [scraper.py] *)

Module Scraper.
Import PyStr PyDict.
Import PyFloat (float).
Local Open Scope py_scope.

(** The prices of one term grouped by date: [month_price_dict]. *)
Definition price_dict : Type := dict (list float).

(** A loop [for x in xs: body] over a state, left by the first exception. *)
Fixpoint for_each {A S : Type} (body : A -> S -> S * result unit)
         (xs : list A) (s : S) : S * result unit :=
  match xs with
  | [] => (s, Ok tt)
  | x :: xs' =>
      match body x s with
      | (s', Ok _) => for_each body xs' s'
      | (s', Raise e) => (s', Raise e)
      end
  end.

(** *** [fetch_listings] *)

Definition search_url (search_keywords : list string) (page_number : nat)
  : string :=
  "https://www.ebay.com/sch/i.html?_nkw=" ++ join "+" search_keywords
  ++ "&_sacat=0&rt=nc&LH_Sold=1&LH_Complete=1&_pgn="
  ++ str_of_nat page_number.

Definition fetch_listings (net : network) (search_keywords : list string)
           (page_number : nat) : result (option section) :=
  match net (search_url search_keywords page_number) with
  | Response doc => Ok (srp_results doc)
  | Unreachable e => Raise e
  end.

(** *** [parse_listing]

    An attribute read on [None] raises [AttributeError], a subscript on
    [None] raises [TypeError], a missing attribute of a tag [KeyError]. *)
Definition parse_listing (it : item)
  : result (string * string * string * string * string) :=
  t <- of_option AttributeError (s_item__title it) ;;
  let title := lower (text t) in
  p <- of_option AttributeError (s_item__price it) ;;
  let price := text p in
  d <- of_option AttributeError (POSITIVE it) ;;
  ds <- of_option AttributeError (string_ d) ;;
  let date := strip (replace "Sold" "" ds) in
  l <- of_option TypeError (s_item__link it) ;;
  h <- of_option KeyError (href l) ;;
  let link := hd "" (split_on "?" h) in
  let condition :=
    match s_item__subtitle it with
    | Some c => lower (text c)
    | None => "Unknown"
    end in
  Ok (title, price, date, link, condition).

(** *** [is_valid_title] *)

(** [keyword in title_words]. *)
Definition in_list (keyword : string) (title_words : list string) : bool :=
  existsb (String.eqb keyword) title_words.

Fixpoint all_in (title_words search_keywords : list string) : bool :=
  match search_keywords with
  | [] => true
  | keyword :: rest =>
      if negb (in_list keyword title_words) then false
      else all_in title_words rest
  end.

Definition is_valid_title (title : string) (search_keywords : list string)
  : bool :=
  let title_words := split title in
  all_in title_words search_keywords.

(** *** [process_price] *)

(** [sum(float(num) for num in tokens if num != 'to')], with the sum so
    far in [acc]; [float] raises [ValueError] on a token it cannot read. *)
Fixpoint sum_floats (acc : float) (tokens : list string) : result float :=
  match tokens with
  | [] => Ok acc
  | num :: rest =>
      if String.eqb num "to" then sum_floats acc rest
      else x <- of_option ValueError (PyFloat.of_string num) ;;
           sum_floats (PyFloat.add acc x) rest
  end.

(** [price.replace("$", "").replace(",", "")]. *)
Definition strip_currency (price : string) : string :=
  replace "," "" (replace "$" "" price).

Definition process_price (price : string) : result float :=
  let price := strip_currency price in
  if contains "to" price then
    total <- sum_floats (PyFloat.of_Z 0) (split price) ;;
    Ok (PyFloat.round2 (PyFloat.div total (PyFloat.of_Z 2)))
  else
    x <- of_option ValueError (PyFloat.of_string price) ;;
    Ok (PyFloat.round2 x).

(** *** [scrape_ebay_for_term] *)

(** [10 < price_value < 900]. *)
Definition in_price_bounds (price_value : float) : bool :=
  PyFloat.ltb (PyFloat.of_Z 10) price_value
  && PyFloat.ltb price_value (PyFloat.of_Z 900).

(** The body of the [try] up to the update of the dict: the date and the
    price to record, if the listing is admitted. *)
Definition listing_observation (search_keywords : list string) (it : item)
  : result (option (string * float)) :=
  '(title, price, date, link, condition) <- parse_listing it ;;
  if is_valid_title title search_keywords then
    price_value <- process_price price ;;
    if in_price_bounds price_value then Ok (Some (date, price_value))
    else Ok None
  else Ok None.

(** [if date not in d: d[date] = []] and then [d[date].append(price)]. *)
Definition record_price (date : string) (price_value : float)
           (d : price_dict) : price_dict :=
  let d1 := if negb (mem date d) then set date [] d else d in
  match get date d1 with
  | Some prices => set date (prices ++ [price_value]) d1
  | None => d1
  end.

(** One turn of the loop over the listings: [except ValueError: continue]
    is the only handler. *)
Definition scrape_item (search_keywords : list string) (it : item)
           (d : price_dict) : price_dict * result unit :=
  match listing_observation search_keywords it with
  | Ok (Some (date, price_value)) => (record_price date price_value d, Ok tt)
  | Ok None => (d, Ok tt)
  | Raise ValueError => (d, Ok tt)
  | Raise e => (d, Raise e)
  end.

(** One turn of the loop over the pages. *)
Definition scrape_page (net : network) (search_keywords : list string)
           (page_number : nat) (d : price_dict) : price_dict * result unit :=
  match fetch_listings net search_keywords page_number with
  | Raise e => (d, Raise e)
  | Ok None => (d, Ok tt)
  | Ok (Some listings_section) =>
      for_each (scrape_item search_keywords)
               (find_all_items listings_section) d
  end.

(** [range(1, 14)]. *)
Definition page_range : list nat := seq 1 13.

(** [search_term.lower().split()]. *)
Definition keywords_of (search_term : string) : list string :=
  split (lower search_term).

Definition scrape_ebay_for_term (net : network) (search_term : string)
           (month_price_dict : price_dict) : price_dict * result unit :=
  let search_keywords := keywords_of search_term in
  for_each (scrape_page net search_keywords) page_range month_price_dict.

End Scraper.

(* ================================================================= *)
(** ** [main]: the run over the whole term list *)

(** A cell handed to [csv.writer]: a string, or a float. *)
Inductive cell : Type :=
  | Text (s : string)
  | Number (x : PyFloat.float).

(** What a run reads and changes: the rows of [search_terms.csv] as
    [csv.reader] gives them ([None]: no such file), the rows written to
    [Average_Prices_By_Day.csv] ([None]: no such file), and the lines
    printed. *)
Record world : Type := {
  search_terms_csv : option (list (list string));
  average_prices_csv : option (list (list cell));
  stdout : list string
}.

Module Main.
Import PyStr PyDict Scraper.
Import PyFloat (float).
Local Open Scope py_scope.

Definition input_file : string := "search_terms.csv".
Definition output_file : string := "Average_Prices_By_Day.csv".

(** [print(line)]. *)
Definition print (line : string) (w : world) : world :=
  {| search_terms_csv := search_terms_csv w;
     average_prices_csv := average_prices_csv w;
     stdout := stdout w ++ [line] |}.

(** [open(output_file, "w")] with the rows written through it. *)
Definition write_output (rows : list (list cell)) (w : world) : world :=
  {| search_terms_csv := search_terms_csv w;
     average_prices_csv := Some rows;
     stdout := stdout w |}.

(** [round(sum(prices) / len(prices), 2)]. *)
Definition average (prices : list float) : result float :=
  match prices with
  | [] => Raise ZeroDivisionError
  | _ =>
      Ok (PyFloat.round2
            (PyFloat.div (PyFloat.sum prices)
                         (PyFloat.of_Z (Z.of_nat (List.length prices)))))
  end.

(** The dict comprehension over [month_price_dict.items()], with the
    entries made so far in [acc]. *)
Fixpoint averages_from (acc : dict float) (items : price_dict)
  : result (dict float) :=
  match items with
  | [] => Ok acc
  | (date, prices) :: rest =>
      a <- average prices ;;
      averages_from (set date a acc) rest
  end.

Definition daily_averages (month_price_dict : price_dict)
  : result (dict float) :=
  averages_from [] month_price_dict.

(** The state of the loop over the rows: the world and [summary_data]. *)
Definition run_state : Type := world * dict (dict float).

(** One turn of the loop over the rows of the term list. *)
Definition process_row (net : network) (row : list string) (st : run_state)
  : run_state * result unit :=
  let '(w, summary_data) := st in
  match row with
  | [] => (st, Ok tt)
  | first :: _ =>
      let search_term := strip first in
      if String.eqb search_term "" then (st, Ok tt)
      else
        let w1 := print ("Processing: " ++ search_term) w in
        match scrape_ebay_for_term net search_term [] with
        | (_, Raise e) => ((w1, summary_data), Raise e)
        | (month_price_dict, Ok _) =>
            match daily_averages month_price_dict with
            | Raise e => ((w1, summary_data), Raise e)
            | Ok averages =>
                ((w1, set search_term averages summary_data), Ok tt)
            end
        end
  end.

(** A set built from a list: each element once. *)
Fixpoint set_of (l : list string) : list string :=
  match l with
  | [] => []
  | x :: l' => if in_list x l' then set_of l' else x :: set_of l'
  end.

(** [sorted(xs)] for strings: [<] on [str] compares code points, the
    first difference deciding. *)
Fixpoint insert_sorted (x : string) (l : list string) : list string :=
  match l with
  | [] => [x]
  | y :: l' => if String.ltb y x then y :: insert_sorted x l' else x :: l
  end.

Fixpoint sorted (l : list string) : list string :=
  match l with
  | [] => []
  | x :: l' => insert_sorted x (sorted l')
  end.

(** [sorted({date for averages in summary_data.values()
             for date in averages.keys()})]. *)
Definition all_dates (summary_data : dict (dict float)) : list string :=
  sorted (set_of (flat_map keys (values summary_data))).

Definition header_row (dates : list string) : list cell :=
  Text "CPU Name" :: map Text dates.

(** [[search_term] + [daily_averages.get(date, "") for date in all_dates]]. *)
Definition term_row (dates : list string) (entry : string * dict float)
  : list cell :=
  let '(search_term, averages) := entry in
  Text search_term
  :: map (fun date =>
            match get date averages with
            | Some a => Number a
            | None => Text ""
            end) dates.

Definition table (summary_data : dict (dict float)) : list (list cell) :=
  let dates := all_dates summary_data in
  header_row dates :: map (term_row dates) summary_data.

Definition main (net : network) (w : world) : world * result unit :=
  match search_terms_csv w with
  | None =>
      (print ("Error: '" ++ input_file
              ++ "' not found. Make sure the file exists.") w, Ok tt)
  | Some rows =>
      match for_each (process_row net) rows (w, []) with
      | ((w1, _), Raise e) => (w1, Raise e)
      | ((w1, summary_data), Ok _) =>
          let w2 := write_output (table summary_data) w1 in
          (print ("Summary data written to " ++ output_file) w2, Ok tt)
      end
  end.

End Main.

(* ================================================================= *)
(** ** Notions used to state the properties *)

Module Notions.
Import PyStr PyDict Scraper.
Import PyFloat (float).

(** No character of [s] is whitespace. *)
Fixpoint no_space (s : string) : bool :=
  match s with
  | EmptyString => true
  | String c s' => negb (isspace c) && no_space s'
  end.

(** The last character of [s] is whitespace. *)
Fixpoint ends_with_space (s : string) : bool :=
  match s with
  | EmptyString => false
  | String c EmptyString => isspace c
  | String _ s' => ends_with_space s'
  end.

(** The first character of [s] is whitespace. *)
Definition starts_with_space (s : string) : bool :=
  match s with
  | EmptyString => false
  | String c _ => isspace c
  end.

(** [k] is a standalone whitespace-delimited token of [s]: a non-empty
    run without whitespace that occurs in [s] with the start of [s] or a
    whitespace character before it, and the end of [s] or a whitespace
    character after it. *)
Definition standalone_token (k s : string) : Prop :=
  k <> EmptyString /\ no_space k = true /\
  exists pre post,
    s = (pre ++ k ++ post)%string
    /\ (pre = EmptyString \/ ends_with_space pre = true)
    /\ (post = EmptyString \/ starts_with_space post = true).

(** [float] applied to each token: all the values, or [None] as soon as
    one token cannot be read. *)
Fixpoint read_all (tokens : list string) : option (list float) :=
  match tokens with
  | [] => Some []
  | t :: rest =>
      match PyFloat.of_string t, read_all rest with
      | Some x, Some xs => Some (x :: xs)
      | _, _ => None
      end
  end.

(** The tokens of a price text other than [to]. *)
Definition amounts (tokens : list string) : list string :=
  filter (fun t => negb (String.eqb t "to")) tokens.

(** The observations of one term in the order in which the loop over its
    listings records them: lines 62 to 64 run once for each. *)
Definition record_all (obs : list (string * float)) (d : price_dict)
  : price_dict :=
  fold_left (fun acc o => record_price (fst o) (snd o) acc) obs d.

(** What the listings of a page contribute, in order: the date and the
    price of each admitted listing. *)
Definition observations (search_keywords : list string) (items : list item)
  : list (string * float) :=
  flat_map (fun it =>
              match listing_observation search_keywords it with
              | Ok (Some o) => [o]
              | _ => []
              end) items.

Definition page_observations (net : network) (search_keywords : list string)
           (page_number : nat) : list (string * float) :=
  match fetch_listings net search_keywords page_number with
  | Ok (Some listings_section) =>
      observations search_keywords (find_all_items listings_section)
  | _ => []
  end.

(** The admitted observations of a term over its page range. *)
Definition term_observations (net : network) (search_term : string)
  : list (string * float) :=
  flat_map (page_observations net (keywords_of search_term)) page_range.

(** The prices observed for [date], in the order of the observations. *)
Definition prices_on (date : string) (obs : list (string * float))
  : list float :=
  map snd (filter (fun o => String.eqb date (fst o)) obs).

(** [sum(prices) / len(prices)]: the mean before it is rounded. *)
Definition mean (prices : list float) : float :=
  PyFloat.div (PyFloat.sum prices)
              (PyFloat.of_Z (Z.of_nat (List.length prices))).

(** Every price of a dict lies strictly between 10 and 900. *)
Definition prices_in_bounds (d : price_dict) : Prop :=
  forall date prices p,
    In (date, prices) d -> In p prices -> in_price_bounds p = true.

(** The dicts that recording builds: each key once, no empty list. *)
Definition well_formed (d : price_dict) : Prop :=
  NoDup (keys d) /\ forall k l, get k d = Some l -> l <> [].

(** *** Calendar dates

    The specification takes a date key for a calendar date read leniently
    from the sold-date text; the marketplace writes [Jan 5, 2024], the
    specification's examples [2024-01-05].  Both forms are read here. *)

Definition month_number (m : string) : option Z :=
  let names := ["jan"; "feb"; "mar"; "apr"; "may"; "jun";
                "jul"; "aug"; "sep"; "oct"; "nov"; "dec"] in
  let fix find (i : Z) (l : list string) :=
    match l with
    | [] => None
    | n :: l' => if String.eqb n (lower m) then Some i else find (i + 1)%Z l'
    end in
  find 1%Z names.

(** A non-empty string of decimal digits as a number. *)
Definition number (s : string) : option Z :=
  match PyFloat.digits 0 0 s with
  | (_, O, _) => None
  | (v, _, EmptyString) => Some v
  | _ => None
  end.

(** Year, month and day of a date text. *)
Definition calendar_date (s : string) : option (Z * Z * Z) :=
  match split (replace "," " " s) with
  | [m; d; y] =>
      match month_number m, number d, number y with
      | Some m', Some d', Some y' => Some (y', m', d')
      | _, _, _ => None
      end
  | [iso] =>
      match split (replace "-" " " iso) with
      | [y; m; d] =>
          match number y, number m, number d with
          | Some y', Some m', Some d' => Some (y', m', d')
          | _, _, _ => None
          end
      | _ => None
      end
  | _ => None
  end.

(** [a] is a strictly earlier calendar date than [b]. *)
Definition earlier (a b : string) : Prop :=
  match calendar_date a, calendar_date b with
  | Some (y1, m1, d1), Some (y2, m2, d2) =>
      (y1 < y2 \/ (y1 = y2 /\ (m1 < m2 \/ (m1 = m2 /\ d1 < d2))))%Z
  | _, _ => False
  end.

(** The dates of [l] are in ascending chronological order. *)
Definition chronological (l : list string) : Prop := Sorted earlier l.

(** [a] is not above [b] in the order of [str]. *)
Definition not_above (a b : string) : Prop := String.ltb b a = false.

(** [a < b] in the order of [str]. *)
Definition below (a b : string) : Prop := String.ltb a b = true.

(** [l] is ascending in the order of [str]: each element is below all
    the later ones. *)
Definition ascending (l : list string) : Prop := StronglySorted below l.

End Notions.

(* ================================================================= *)
(** ** Pages and runs used in the examples *)

Module Examples.
Import PyStr PyDict Scraper Main.

(** A tag with one text child. *)
Definition tag (s : string) : element :=
  {| text := s; string_ := Some s; href := None |}.

(** An [a] tag with its [href]. *)
Definition anchor (url : string) : element :=
  {| text := ""; string_ := None; href := Some url |}.

(** A complete listing node. *)
Definition listing (title price sold : string) : item :=
  {| s_item__title := Some (tag title);
     s_item__price := Some (tag price);
     POSITIVE := Some (tag sold);
     s_item__link := Some (anchor "https://www.ebay.com/itm/1?hash=item1");
     s_item__subtitle := Some (tag "Pre-Owned") |}.

(** The same node without its title tag. *)
Definition without_title (it : item) : item :=
  {| s_item__title := None;
     s_item__price := s_item__price it;
     POSITIVE := POSITIVE it;
     s_item__link := s_item__link it;
     s_item__subtitle := s_item__subtitle it |}.

(** A response with a results container holding [items]. *)
Definition page (items : list item) : fetched :=
  Response {| srp_results := Some {| find_all_items := items |} |}.

(** A response without results container. *)
Definition no_results : fetched := Response {| srp_results := None |}.

(** A service that answers the listed URLs and has no results container
    anywhere else. *)
Fixpoint serve (pages : list (string * fetched)) : network :=
  fun url =>
    match pages with
    | [] => no_results
    | (u, r) :: rest => if String.eqb url u then r else serve rest url
    end.

Definition ryzen : list string := ["ryzen"; "5"].

Definition good : item :=
  listing "AMD Ryzen 5 3600" "$100.00" "Sold  Jan 5, 2024".

(** Page 1 cannot be fetched; page 2 holds an admissible listing. *)
Definition net_unreachable : network :=
  serve [(search_url ryzen 1, Unreachable ConnectionError);
         (search_url ryzen 2, page [good])].

(** Page 1 holds a listing without title, then an admissible one. *)
Definition net_missing_title : network :=
  serve [(search_url ryzen 1, page [without_title good; good])].

(** Page 1 holds the admissible listing alone. *)
Definition net_good : network :=
  serve [(search_url ryzen 1, page [good])].

(** Page 1 holds a sale of 5 January and a sale of 1 February 2024. *)
Definition net_two_months : network :=
  serve [(search_url ryzen 1,
          page [listing "AMD Ryzen 5 3600" "$100.00" "Sold  Jan 5, 2024";
                listing "AMD Ryzen 5 3600" "$120.00" "Sold  Feb 1, 2024"])].

(** A world with a term list of one term and no output file yet. *)
Definition one_term : world :=
  {| search_terms_csv := Some [["Ryzen 5"]];
     average_prices_csv := None;
     stdout := [] |}.

(** Three sales on two days, and three sales on one day. *)
Definition two_days : list (string * PyFloat.float) :=
  [("2024-01-01", PyFloat.lit "100"); ("2024-01-01", PyFloat.lit "200");
   ("2024-01-02", PyFloat.lit "50")].

Definition one_day : list (string * PyFloat.float) :=
  [("2024-01-01", PyFloat.lit "100"); ("2024-01-01", PyFloat.lit "100");
   ("2024-01-01", PyFloat.lit "101")].

(** The averages of one term sold on 5 January and on 1 February 2024,
    with the dates as the marketplace writes them. *)
Definition two_months : dict (dict PyFloat.float) :=
  [("ryzen 5", [("Jan 5, 2024", PyFloat.lit "100.0");
                ("Feb 1, 2024", PyFloat.lit "120.0")])].

(** A world without term list. *)
Definition no_term_list : world :=
  {| search_terms_csv := None;
     average_prices_csv := None;
     stdout := [] |}.

End Examples.

(* ================================================================= *)
(** ** Further notions, for the properties of the whole pipeline *)

From Stdlib Require DecimalNat.

Module MoreNotions.
Import PyStr PyDict Scraper Main Notions.
Import PyFloat (float).

(** [c] does not occur in [s]. *)
Fixpoint char_free (c : ascii) (s : string) : bool :=
  match s with
  | EmptyString => true
  | String x s' => negb (Ascii.eqb x c) && char_free c s'
  end.

(** [s] without the occurrences of [c]. *)
Fixpoint drop_char (c : ascii) (s : string) : string :=
  match s with
  | EmptyString => EmptyString
  | String x s' =>
      if Ascii.eqb x c then drop_char c s' else String x (drop_char c s')
  end.

(** The tags that [parse_listing] cannot do without are there: the title,
    the price, the sold date with its text, the link with its [href]. *)
Definition required_present (it : item) : bool :=
  match s_item__title it, s_item__price it, POSITIVE it, s_item__link it with
  | Some _, Some _, Some d, Some l =>
      match string_ d, href l with
      | Some _, Some _ => true
      | _, _ => false
      end
  | _, _, _, _ => false
  end.

(** [d'] holds what [d] holds, with prices added after those of [d] at
    most. *)
Definition extends (d d' : price_dict) : Prop :=
  forall date prices,
    get date d = Some prices ->
    exists more, get date d' = Some (prices ++ more).

(** Two services answer alike on the pages that a term's run requests. *)
Definition same_pages (net1 net2 : network) (search_keywords : list string)
  : Prop :=
  forall p,
    In p page_range ->
    net1 (search_url search_keywords p) = net2 (search_url search_keywords p).

(** A row that the loop of [main] passes over: an empty row, or a first
    cell that is empty once stripped. *)
Definition blank_row (row : list string) : bool :=
  match row with
  | [] => true
  | first :: _ => String.eqb (strip first) EmptyString
  end.

(** The search terms of the term list, in order: the stripped first cells
    of the rows that are not blank. *)
Definition terms_of (rows : list (list string)) : list string :=
  flat_map (fun row => if blank_row row then [] else [strip (hd EmptyString row)])
           rows.

(** [l] with each element at its first occurrence only. *)
Fixpoint keep_first (l : list string) : list string :=
  match l with
  | [] => []
  | x :: l' => x :: filter (fun y => negb (String.eqb y x)) (keep_first l')
  end.

(** The world [w] with another term list. *)
Definition with_term_list (rows : option (list (list string))) (w : world)
  : world :=
  {| search_terms_csv := rows;
     average_prices_csv := average_prices_csv w;
     stdout := stdout w |}.

(** The dates of a summary: the keys of the averages of its terms. *)
Definition has_date (summary_data : dict (dict float)) (date : string)
  : Prop :=
  exists search_term averages,
    In (search_term, averages) summary_data /\ In date (keys averages).

End MoreNotions.

(* ================================================================= *)
(** ** Further pages and runs for the examples *)

Module MoreExamples.
Import PyStr PyDict Scraper Main Examples.

(** As [net_good] on the pages 1 to 13, and unreachable at page 14. *)
Definition net_good_then_down : network :=
  serve [(search_url ryzen 1, page [good]);
         (search_url ryzen 14, Unreachable ConnectionError)].

(** A term list with blank rows and a repeated term. *)
Definition three_rows : world :=
  {| search_terms_csv := Some [["Ryzen 5"]; []; ["  "; "x"]; ["i7"]; [" Ryzen 5 "]];
     average_prices_csv := None;
     stdout := [] |}.

(** The same term list without its blank rows. *)
Definition three_rows_dense : world :=
  {| search_terms_csv := Some [["Ryzen 5"]; ["i7"]; [" Ryzen 5 "]];
     average_prices_csv := None;
     stdout := [] |}.

End MoreExamples.

Module MoreExamples2.
Import PyStr PyDict Scraper Main Examples.

(** The dates of [two_months] again, spread over two terms in another
    order. *)
Definition two_months_split : dict (dict PyFloat.float) :=
  [("i7", [("Feb 1, 2024", PyFloat.lit "300.0")]);
   ("ryzen 5", [("Feb 1, 2024", PyFloat.lit "120.0");
                ("Jan 5, 2024", PyFloat.lit "100.0")])].

End MoreExamples2.
(* ================================================================= *)
(** ** Facts about strings *)

Section StringFacts.
Import PyStr Notions.
Local Open Scope string_scope.

Lemma append_nil_r (s : string) : s ++ "" = s.
Proof. induction s; simpl; congruence. Qed.

Lemma append_assoc (a b c : string) : (a ++ b) ++ c = a ++ (b ++ c).
Proof. induction a; simpl; congruence. Qed.

Lemma append_eq_nil (a b : string) : a ++ b = "" -> a = "" /\ b = "".
Proof. destruct a; simpl; [auto | discriminate]. Qed.

Lemma no_space_app (a b : string) :
  no_space (a ++ b) = no_space a && no_space b.
Proof.
  induction a as [|c a IH]; simpl; [reflexivity|].
  rewrite IH. now rewrite andb_assoc.
Qed.

Lemma ends_with_space_cons (c : ascii) (s : string) :
  s <> "" -> ends_with_space (String c s) = ends_with_space s.
Proof. destruct s; [congruence | reflexivity]. Qed.

Lemma ends_with_space_nonempty (s : string) :
  ends_with_space s = true -> s <> "".
Proof. destruct s; simpl; congruence. Qed.

(** What [split_from] yields, for a run [tok] read so far: either the
    token that continues [tok], or a token that starts after a whitespace
    character of [s]. *)
Lemma In_split_from (k : string) :
  forall s tok,
    no_space tok = true ->
    In k (split_from tok s) <->
    (k <> "" /\
     ((exists w post,
          s = w ++ post /\ no_space w = true /\ k = tok ++ w
          /\ (post = "" \/ starts_with_space post = true))
      \/ (no_space k = true /\
          exists pre post,
            s = pre ++ k ++ post /\ ends_with_space pre = true
            /\ (post = "" \/ starts_with_space post = true)))).
Proof.
  induction s as [|c s IH]; intros tok Htok.
  - simpl. split.
    + intros H. destruct tok as [|t tok'].
      * destruct H.
      * destruct H as [<-|[]]. split; [discriminate|].
        left. exists "", "". rewrite !append_nil_r. auto.
    + intros [Hk [(w & post & Hs & _ & -> & _)|(_ & pre & post & Hs & Hpre & _)]].
      * symmetry in Hs. apply append_eq_nil in Hs as [-> _].
        rewrite append_nil_r in *. destruct tok; [congruence | now left].
      * symmetry in Hs. apply append_eq_nil in Hs as [-> _]. discriminate.
  - simpl. destruct (isspace c) eqn:Hc.
    + (* [c] closes the run *)
      assert (Hrest : In k (split_from "" s) <->
                      k <> "" /\ no_space k = true /\
                      exists pre post, String c s = pre ++ k ++ post
                        /\ ends_with_space pre = true
                        /\ (post = "" \/ starts_with_space post = true)).
      { rewrite (IH "" eq_refl). split.
        - intros [Hk [(w & post & -> & Hw & -> & Hp)|(Hn & pre & post & -> & Hpre & Hp)]].
          + simpl. repeat split; auto.
            exists (String c ""), post. simpl. auto.
          + repeat split; auto. exists (String c pre), post. split; [reflexivity|].
            split; [|assumption].
            rewrite ends_with_space_cons; auto using ends_with_space_nonempty.
        - intros (Hk & Hn & pre & post & Hs & Hpre & Hp). split; [assumption|].
          destruct pre as [|c' pre]; [discriminate|].
          simpl in Hs. injection Hs as <- ->.
          destruct pre as [|c2 pre].
          + left. exists k, post. simpl. auto.
          + right. split; [assumption|]. exists (String c2 pre), post. auto. }
      assert (Hfirst : forall w post, String c s = w ++ post ->
                                      no_space w = true -> w = "").
      { intros w post Hs Hw. destruct w as [|c' w]; [reflexivity|].
        simpl in Hs, Hw. injection Hs as <- _. rewrite Hc in Hw. discriminate. }
      destruct tok as [|t tok'].
      * rewrite Hrest. split.
        -- intros (Hk & Hn & Hex). split; [assumption|]. right. auto.
        -- intros [Hk [(w & post & Hs & Hw & -> & Hp)|(Hn & Hex)]].
           ++ rewrite (Hfirst _ _ Hs Hw) in Hk. now contradiction Hk.
           ++ auto.
      * simpl. rewrite Hrest. split.
        -- intros [<-|(Hk & Hn & Hex)].
           ++ split; [discriminate|]. left.
              exists "", (String c s). rewrite append_nil_r. simpl. auto.
           ++ split; [assumption|]. right. auto.
        -- intros [Hk [(w & post & Hs & Hw & -> & Hp)|(Hn & Hex)]].
           ++ rewrite (Hfirst _ _ Hs Hw), append_nil_r. now left.
           ++ right. auto.
    + (* [c] continues the run *)
      rewrite IH by (rewrite no_space_app; simpl; now rewrite Htok, Hc).
      split.
      * intros [Hk [(w & post & -> & Hw & -> & Hp)|(Hn & pre & post & -> & Hpre & Hp)]];
          (split; [assumption|]).
        -- left. exists (String c w), post. simpl. rewrite Hc, Hw.
           rewrite append_assoc. auto.
        -- right. split; [assumption|]. exists (String c pre), post.
           split; [reflexivity|]. split; [|assumption].
           rewrite ends_with_space_cons; auto using ends_with_space_nonempty.
      * intros [Hk [(w & post & Hs & Hw & -> & Hp)|(Hn & pre & post & Hs & Hpre & Hp)]];
          (split; [assumption|]).
        -- left. destruct w as [|c' w].
           ++ simpl in Hs. subst post. destruct Hp as [Hp|Hp]; [discriminate|].
              simpl in Hp. congruence.
           ++ simpl in Hs, Hw. injection Hs as <- ->.
              apply andb_true_iff in Hw as [_ Hw].
              exists w, post. rewrite append_assoc. auto.
        -- right. split; [assumption|].
           destruct pre as [|c' pre]; [discriminate|].
           simpl in Hs. injection Hs as <- ->.
           destruct pre as [|c2 pre]; [simpl in Hpre; congruence|].
           exists (String c2 pre), post. auto.
Qed.

(** The tokens of [s.split()] are the standalone tokens of [s]. *)
Lemma In_split (k s : string) : In k (split s) <-> standalone_token k s.
Proof.
  unfold split, standalone_token. rewrite (In_split_from k s "" eq_refl).
  split.
  - intros [Hk [(w & post & -> & Hw & -> & Hp)|(Hn & pre & post & -> & Hpre & Hp)]].
    + repeat split; auto. exists "", post. auto.
    + repeat split; auto. exists pre, post. auto.
  - intros (Hk & Hn & pre & post & -> & [->|Hpre] & Hp); (split; [assumption|]).
    + left. exists k, post. auto.
    + right. split; [assumption|]. exists pre, post. auto.
Qed.

Lemma prefix_app (a b : string) : prefix a (a ++ b) = true.
Proof.
  induction a as [|c a IH]; simpl.
  - now destruct b.
  - destruct (ascii_dec c c); [assumption | congruence].
Qed.

Lemma prefix_contains (sub s : string) :
  prefix sub s = true -> contains sub s = true.
Proof. intros H. destruct s; cbn [contains]; now rewrite H. Qed.

Lemma contains_app (sub pre post : string) :
  contains sub (pre ++ sub ++ post) = true.
Proof.
  induction pre as [|c pre IH]; simpl.
  - apply prefix_contains, prefix_app.
  - rewrite IH. apply orb_true_r.
Qed.

(** A token of [s.split()] occurs in [s]. *)
Lemma split_contains (k s : string) :
  In k (split s) -> contains k s = true.
Proof.
  intros H. apply In_split in H as (_ & _ & pre & post & -> & _).
  apply contains_app.
Qed.

End StringFacts.

(* ================================================================= *)
(** ** The title filter and the price normalizer *)

Section TitleAndPrice.
Import PyStr Scraper Notions.
Local Open Scope string_scope.

Lemma in_list_In (k : string) (l : list string) :
  in_list k l = true <-> In k l.
Proof.
  unfold in_list. rewrite existsb_exists. split.
  - intros (x & Hx & E). apply String.eqb_eq in E. now subst.
  - intros H. exists k. split; [assumption | apply String.eqb_refl].
Qed.

Lemma all_in_spec (title_words search_keywords : list string) :
  all_in title_words search_keywords = true <->
  forall k, In k search_keywords -> In k title_words.
Proof.
  induction search_keywords as [|kw rest IH]; simpl.
  - split; [intros _ k [] | reflexivity].
  - destruct (in_list kw title_words) eqn:E; simpl.
    + rewrite IH. apply in_list_In in E. split.
      * intros H k [<-|Hk]; auto.
      * intros H k Hk. apply H. now right.
    + split; [discriminate|]. intros H.
      assert (Hin : In kw title_words) by (apply H; now left).
      apply in_list_In in Hin. congruence.
Qed.

Lemma is_valid_title_standalone_tokens_general :
  (forall title search_keywords,
      is_valid_title title search_keywords = true ->
      forall k, In k search_keywords -> standalone_token k title)
  /\ (forall title search_keywords,
         (forall k, In k search_keywords -> standalone_token k title) ->
         is_valid_title title search_keywords = true).
Proof.
  split; intros title search_keywords H; unfold is_valid_title in *.
  - intros k Hk. apply In_split. rewrite all_in_spec in H. auto.
  - apply all_in_spec. intros k Hk. apply In_split. auto.
Qed.

(** C5. [is_valid_title] admits a title exactly when every keyword is a
    standalone whitespace-delimited token of it; an occurrence inside a
    longer token does not count.  With the keywords of the term
    [ryzen 5], the title [amd ryzen 5 3600] is admitted, also as
    [parse_listing] lowers it from mixed case, while [ryzen] and
    [amd ryzen5 3600] are rejected. *)
Theorem is_valid_title_standalone_tokens :
  (forall title search_keywords,
      is_valid_title title search_keywords = true <->
      forall k, In k search_keywords -> standalone_token k title)
  /\ is_valid_title "amd ryzen 5 3600" (keywords_of "ryzen 5") = true
  /\ is_valid_title (lower "AMD Ryzen 5 3600") (keywords_of "Ryzen 5") = true
  /\ is_valid_title "ryzen" (keywords_of "ryzen 5") = false
  /\ is_valid_title "amd ryzen5 3600" (keywords_of "ryzen 5") = false.
Proof.
  split; [|repeat split].
  intros title search_keywords.
  destruct is_valid_title_standalone_tokens_general as [Hto Hfrom].
  split; [apply Hto | apply Hfrom].
Qed.

(** In the loop of [scrape_ebay_for_term] the title is lowered by
    [parse_listing] and the keywords are those of the lowered term: a
    listing contributes only if each of them is a standalone token of its
    lowered title. *)
Lemma observation_title_tokens (search_term : string) (it : item)
      (o : string * PyFloat.float) :
  listing_observation (keywords_of search_term) it = Ok (Some o) ->
  exists t,
    s_item__title it = Some t
    /\ forall k, In k (split (lower search_term)) ->
                 standalone_token k (lower (text t)).
Proof.
  destruct is_valid_title_standalone_tokens_general as [Hvalid _].
  unfold listing_observation, parse_listing, keywords_of.
  destruct (s_item__title it) as [t|]; simpl; [|discriminate].
  destruct (s_item__price it); simpl; [|discriminate].
  destruct (POSITIVE it) as [d|]; simpl; [|discriminate].
  destruct (string_ d); simpl; [|discriminate].
  destruct (s_item__link it) as [l|]; simpl; [|discriminate].
  destruct (href l); simpl; [|discriminate].
  destruct (is_valid_title (lower (text t)) (split (lower search_term)))
    eqn:E; [|discriminate].
  intros _. exists t. split; [reflexivity|]. now apply Hvalid.
Qed.

(** The floats of the examples, as binary64 values: [15.0] is
    [15 * 2^49 * 2^-49], and [0.1] is the nearest float to one tenth. *)
Example float_literals :
  PyFloat.lit "15.0" = S754_finite false 8444249301319680 (-49)
  /\ PyFloat.lit "15.0" = PyFloat.of_Z 15
  /\ PyFloat.lit "0.1" = S754_finite false 7205759403792794 (-56)
  /\ PyFloat.round2 (PyFloat.lit "2.675") = PyFloat.lit "2.67"
  /\ PyFloat.round2 (PyFloat.lit "0.125") = PyFloat.lit "0.12"
  /\ PyFloat.sum [PyFloat.lit "0.1"; PyFloat.lit "0.2"]
     = PyFloat.lit "0.30000000000000004".
Proof. repeat split. Qed.

(** What [float] rejects and accepts. *)
Example float_of_string_cases :
  PyFloat.of_string "to" = None
  /\ PyFloat.of_string "Free" = None
  /\ PyFloat.of_string "1e" = None
  /\ PyFloat.of_string "1__0" = None
  /\ PyFloat.of_string " 1_000.50 " = Some (PyFloat.lit "1000.5")
  /\ PyFloat.of_string "-Infinity" = Some (PyFloat.inf true)
  /\ PyFloat.of_string "1e400" = Some (PyFloat.inf false)
  /\ PyFloat.of_string "NaN" = Some PyFloat.nan.
Proof. repeat split. Qed.

(** The generator summed by [process_price] reads the amounts one by one
    and adds them from left to right. *)
Lemma sum_floats_read_all (tokens : list string) :
  forall acc,
    sum_floats acc tokens =
    match read_all (amounts tokens) with
    | Some xs => Ok (fold_left PyFloat.add xs acc)
    | None => Raise ValueError
    end.
Proof.
  induction tokens as [|t rest IH]; intros acc; simpl; [reflexivity|].
  destruct (String.eqb t "to"); simpl; [apply IH|].
  destruct (PyFloat.of_string t) as [x|]; simpl; [|reflexivity].
  rewrite IH. now destruct (read_all (amounts rest)).
Qed.

(** C10. When the price text without [$] and [,] contains [to], the
    normalizer returns half the sum of all its whitespace-separated
    tokens other than [to], rounded to 2 decimal places, however many
    there are; it raises [ValueError] when one of them is not a number. *)
Theorem process_price_half_sum (price : string) :
  contains "to" (strip_currency price) = true ->
  process_price price =
  match read_all (amounts (split (strip_currency price))) with
  | Some xs =>
      Ok (PyFloat.round2 (PyFloat.div (PyFloat.sum xs) (PyFloat.of_Z 2)))
  | None => Raise ValueError
  end.
Proof.
  intros H. unfold process_price. rewrite H, sum_floats_read_all.
  now destruct (read_all _).
Qed.

Lemma process_price_half_sum_witness :
  contains "to" (strip_currency "$10.00 to $20.00 to $30.00") = true
  /\ process_price "$10.00 to $20.00 to $30.00" = Ok (PyFloat.lit "30.0").
Proof.
  split; [reflexivity|].
  rewrite (process_price_half_sum "$10.00 to $20.00 to $30.00" eq_refl).
  reflexivity.
Defined.

(** C4. A price text that reads, without [$] and [,], as two numbers
    with [to] between them is normalized to the sum of the two numbers
    divided by 2 and rounded to 2 decimal places. *)
Theorem process_price_range (price a b : string) (x y : PyFloat.float) :
  split (strip_currency price) = [a; "to"; b] ->
  PyFloat.of_string a = Some x ->
  PyFloat.of_string b = Some y ->
  process_price price =
  Ok (PyFloat.round2 (PyFloat.div (PyFloat.sum [x; y]) (PyFloat.of_Z 2))).
Proof.
  intros Hs Ha Hb.
  assert (Hto : contains "to" (strip_currency price) = true).
  { apply split_contains. rewrite Hs. simpl. auto. }
  rewrite (process_price_half_sum price Hto), Hs.
  assert (Hne : forall t z, PyFloat.of_string t = Some z ->
                            String.eqb t "to" = false).
  { intros t z Ht. destruct (String.eqb_spec t "to") as [->|]; [|reflexivity].
    discriminate Ht. }
  unfold amounts. simpl.
  rewrite (Hne _ _ Ha), (Hne _ _ Hb). simpl. now rewrite Ha, Hb.
Qed.

Lemma process_price_range_witness :
  split (strip_currency "$10.00 to $20.00") = ["10.00"; "to"; "20.00"]
  /\ PyFloat.of_string "10.00" = Some (PyFloat.lit "10.0")
  /\ PyFloat.of_string "20.00" = Some (PyFloat.lit "20.0")
  /\ process_price "$10.00 to $20.00" = Ok (PyFloat.lit "15.0").
Proof.
  split; [reflexivity|]. split; [reflexivity|]. split; [reflexivity|].
  rewrite (process_price_range "$10.00 to $20.00" "10.00" "20.00"
             (PyFloat.lit "10.0") (PyFloat.lit "20.0")
             eq_refl eq_refl eq_refl).
  reflexivity.
Defined.

End TitleAndPrice.

(* ================================================================= *)
(** ** The loops of [scrape_ebay_for_term] *)

Section Loops.
Context {A S : Type}.
Variable body : A -> S -> S * result unit.
Import Scraper.

(** A loop over [l1 ++ l2] runs [l1], then [l2] unless [l1] raised. *)
Lemma for_each_app (l1 l2 : list A) :
  forall s,
    for_each body (l1 ++ l2) s =
    match for_each body l1 s with
    | (s1, Ok _) => for_each body l2 s1
    | (s1, Raise e) => (s1, Raise e)
    end.
Proof.
  induction l1 as [|x l1 IH]; intros s; simpl; [reflexivity|].
  destruct (body x s) as [s' [u|e]]; [apply IH | reflexivity].
Qed.

(** A property of the state that every turn keeps holds after the loop,
    however it ends. *)
Lemma for_each_invariant (P : S -> Prop) :
  (forall x s, P s -> P (fst (body x s))) ->
  forall l s, P s -> P (fst (for_each body l s)).
Proof.
  intros Hbody. induction l as [|x l IH]; intros s Hs; simpl; [assumption|].
  specialize (Hbody x s Hs).
  destruct (body x s) as [s' [u|e]]; simpl in *; auto.
Qed.

End Loops.

Section ScrapeFacts.
Import PyStr PyDict Scraper Notions.
Local Open Scope string_scope.

Lemma get_In {V : Type} (k : string) (v : V) (d : dict V) :
  get k d = Some v -> In (k, v) d.
Proof.
  induction d as [|[k' v'] d IH]; simpl; [discriminate|].
  destruct (String.eqb_spec k k') as [->|_].
  - intros [= ->]. now left.
  - intros H. right. auto.
Qed.

Lemma In_set {V : Type} (k k0 : string) (v v0 : V) (d : dict V) :
  In (k, v) (set k0 v0 d) -> (k = k0 /\ v = v0) \/ In (k, v) d.
Proof.
  induction d as [|[k' v'] d IH]; simpl.
  - intros [[= <- <-]|[]]. now left.
  - destruct (String.eqb_spec k0 k') as [->|_]; simpl.
    + intros [[= <- <-]|H]; auto.
    + intros [H|H]; auto. destruct (IH H); auto.
Qed.

Lemma record_price_in_bounds (date : string) (p : PyFloat.float)
      (d : price_dict) :
  in_price_bounds p = true ->
  prices_in_bounds d -> prices_in_bounds (record_price date p d).
Proof.
  intros Hp Hd. unfold record_price.
  set (d1 := if negb (mem date d) then set date [] d else d).
  assert (Hd1 : prices_in_bounds d1).
  { subst d1. destruct (negb (mem date d)); [|assumption].
    intros k ps q Hin Hq. apply In_set in Hin as [[_ ->]|Hin].
    - destruct Hq.
    - eapply Hd; eauto. }
  destruct (get date d1) as [prices|] eqn:Hget; [|assumption].
  intros k ps q Hin Hq. apply In_set in Hin as [[_ ->]|Hin].
  - apply in_app_or in Hq as [Hq|[<-|[]]]; [|assumption].
    eapply Hd1; eauto using get_In.
  - eapply Hd1; eauto.
Qed.

(** A listing is admitted only with a price strictly between 10 and 900. *)
Lemma observation_in_bounds (search_keywords : list string) (it : item)
      (date : string) (p : PyFloat.float) :
  listing_observation search_keywords it = Ok (Some (date, p)) ->
  in_price_bounds p = true.
Proof.
  unfold listing_observation. destruct (parse_listing it) as [[[[[t pr] dt] l] c]|e];
    simpl; [|discriminate].
  destruct (is_valid_title t search_keywords); [|discriminate].
  destruct (process_price pr) as [x|e]; simpl; [|discriminate].
  destruct (in_price_bounds x) eqn:Hx; [|discriminate].
  now intros [= _ <-].
Qed.

Lemma scrape_item_in_bounds (search_keywords : list string) (it : item)
      (d : price_dict) :
  prices_in_bounds d ->
  prices_in_bounds (fst (scrape_item search_keywords it d)).
Proof.
  intros Hd. unfold scrape_item.
  destruct (listing_observation search_keywords it) as [[[date p]|]|e] eqn:Ha; simpl.
  - apply record_price_in_bounds; eauto using observation_in_bounds.
  - assumption.
  - now destruct e.
Qed.

Lemma scrape_page_in_bounds (net : network) (search_keywords : list string)
      (page_number : nat) (d : price_dict) :
  prices_in_bounds d ->
  prices_in_bounds (fst (scrape_page net search_keywords page_number d)).
Proof.
  intros Hd. unfold scrape_page.
  destruct (fetch_listings net search_keywords page_number) as [[sec|]|e];
    simpl; try assumption.
  apply for_each_invariant; [|assumption].
  intros it s. apply scrape_item_in_bounds.
Qed.

(** A price within the bounds is a positive finite number: neither NaN nor
    an infinity passes the comparison. *)
Lemma in_price_bounds_finite (p : PyFloat.float) :
  in_price_bounds p = true -> exists m e, p = S754_finite false m e.
Proof.
  unfold in_price_bounds, PyFloat.ltb, SFltb.
  assert (E10 : exists m0 e0, PyFloat.of_Z 10 = S754_finite false m0 e0)
    by (vm_compute; eauto).
  assert (E900 : exists m0 e0, PyFloat.of_Z 900 = S754_finite false m0 e0)
    by (vm_compute; eauto).
  destruct E10 as (m10 & e10 & ->). destruct E900 as (m900 & e900 & ->).
  destruct p as [s|s| |s m e].
  - destruct s; discriminate.
  - destruct s; discriminate.
  - discriminate.
  - destruct s; [discriminate | eauto].
Qed.

(** C6. Every price that a term's run records lies strictly between 10
    and 900: starting from a dict whose prices do (the empty dict of
    [main] in particular), the dict left by [scrape_ebay_for_term],
    whether the run completes or raises, holds no price [<= 10] or
    [>= 900], and no NaN or infinity, so none is counted in an average. *)
Theorem recorded_prices_in_bounds (net : network) (search_term : string)
        (d : price_dict) (date : string) (prices : list PyFloat.float)
        (p : PyFloat.float) :
  prices_in_bounds d ->
  In (date, prices) (fst (scrape_ebay_for_term net search_term d)) ->
  In p prices ->
  PyFloat.ltb (PyFloat.of_Z 10) p = true
  /\ PyFloat.ltb p (PyFloat.of_Z 900) = true
  /\ exists m e, p = S754_finite false m e.
Proof.
  intros Hd Hin Hp.
  assert (H : prices_in_bounds (fst (scrape_ebay_for_term net search_term d))).
  { unfold scrape_ebay_for_term. apply for_each_invariant; [|assumption].
    intros page s. apply scrape_page_in_bounds. }
  assert (Hb : in_price_bounds p = true) by (eapply H; eauto).
  split; [|split; [|now apply in_price_bounds_finite]];
    unfold in_price_bounds in Hb; apply andb_true_iff in Hb; tauto.
Qed.

Lemma recorded_prices_in_bounds_witness :
  prices_in_bounds []
  /\ In ("Jan 5, 2024", [PyFloat.lit "100.0"])
        (fst (scrape_ebay_for_term Examples.net_good "Ryzen 5" []))
  /\ In (PyFloat.lit "100.0") [PyFloat.lit "100.0"]
  /\ PyFloat.ltb (PyFloat.of_Z 10) (PyFloat.lit "100.0") = true
  /\ PyFloat.ltb (PyFloat.lit "100.0") (PyFloat.of_Z 900) = true.
Proof.
  assert (H0 : prices_in_bounds []) by (intros ? ? ? []).
  assert (H1 : In ("Jan 5, 2024", [PyFloat.lit "100.0"])
                  (fst (scrape_ebay_for_term Examples.net_good "Ryzen 5" [])))
    by (vm_compute; auto).
  assert (H2 : In (PyFloat.lit "100.0") [PyFloat.lit "100.0"])
    by (simpl; auto).
  split; [exact H0|]. split; [exact H1|]. split; [exact H2|].
  destruct (recorded_prices_in_bounds Examples.net_good "Ryzen 5" []
              "Jan 5, 2024" [PyFloat.lit "100.0"] (PyFloat.lit "100.0")
              H0 H1 H2) as (Hlo & Hhi & _).
  split; [exact Hlo | exact Hhi].
Defined.

(** The bounds are strict: listings at exactly 10 and 900 are rejected, as
    are a range with midpoint 10 and a price that is no number; the page
    records the other two. *)
Example boundary_prices_rejected :
  for_each (scrape_item Examples.ryzen)
           [Examples.listing "Ryzen 5" "$10.00" "Sold  Jan 5, 2024";
            Examples.listing "Ryzen 5" "$10.01" "Sold  Jan 5, 2024";
            Examples.listing "Ryzen 5" "$900.00" "Sold  Jan 5, 2024";
            Examples.listing "Ryzen 5" "$899.99" "Sold  Jan 5, 2024";
            Examples.listing "Ryzen 5" "$5.00 to $15.00" "Sold  Jan 5, 2024";
            Examples.listing "Ryzen 5" "Free" "Sold  Jan 5, 2024";
            Examples.listing "Ryzen 5" "$1,250.00" "Sold  Jan 5, 2024"] []
  = ([("Jan 5, 2024", [PyFloat.lit "10.01"; PyFloat.lit "899.99"])], Ok tt).
Proof. vm_compute. reflexivity. Qed.

End ScrapeFacts.

(* ================================================================= *)
(** ** Pages that fail, pages without results, listings without fields *)

Section PageFacts.
Import PyStr PyDict Scraper Main Notions Examples.

(** The run over the pages, cut at one page. *)
Lemma scrape_pages_split (net : network) (search_keywords : list string)
      (before after : list nat) (p : nat) (d : price_dict) :
  for_each (scrape_page net search_keywords) (before ++ p :: after) d =
  match for_each (scrape_page net search_keywords) before d with
  | (d1, Ok _) =>
      match scrape_page net search_keywords p d1 with
      | (d2, Ok _) => for_each (scrape_page net search_keywords) after d2
      | (d2, Raise e) => (d2, Raise e)
      end
  | (d1, Raise e) => (d1, Raise e)
  end.
Proof. now rewrite for_each_app. Qed.

(** C9. A page whose results container is absent is not an error:
    [fetch_listings] returns [None], the page leaves the recorded
    prices as they are and raises nothing, and the term's run over the 13
    pages of [range(1, 14)] is the run over the other pages. *)
Theorem absent_container_skips_page (net : network) (search_term : string)
        (p : nat) (doc : document) (before after : list nat)
        (d : price_dict) :
  page_range = before ++ p :: after ->
  net (search_url (keywords_of search_term) p) = Response doc ->
  srp_results doc = None ->
  fetch_listings net (keywords_of search_term) p = Ok None
  /\ (forall d', scrape_page net (keywords_of search_term) p d' = (d', Ok tt))
  /\ scrape_ebay_for_term net search_term d =
     for_each (scrape_page net (keywords_of search_term)) (before ++ after) d
  /\ page_range = [1; 2; 3; 4; 5; 6; 7; 8; 9; 10; 11; 12; 13].
Proof.
  intros Hrange Hnet Hdoc.
  assert (Hfetch : fetch_listings net (keywords_of search_term) p = Ok None).
  { unfold fetch_listings. now rewrite Hnet, Hdoc. }
  assert (Hpage : forall d',
             scrape_page net (keywords_of search_term) p d' = (d', Ok tt)).
  { intros d'. unfold scrape_page. now rewrite Hfetch. }
  repeat split; auto.
  unfold scrape_ebay_for_term. rewrite Hrange, scrape_pages_split, for_each_app.
  destruct (for_each _ before d) as [d1 [u|e]]; [|reflexivity].
  now rewrite Hpage.
Qed.

Lemma absent_container_skips_page_witness :
  page_range = [] ++ 1 :: seq 2 12
  /\ net_good (search_url (keywords_of "i7") 1)
     = Response {| srp_results := None |}
  /\ scrape_ebay_for_term net_good "i7" [] = ([], Ok tt).
Proof.
  split; [reflexivity|]. split; [reflexivity|].
  destruct (absent_container_skips_page net_good "i7" 1
              {| srp_results := None |} [] (seq 2 12) []
              eq_refl eq_refl eq_refl) as (_ & _ & H & _).
  rewrite H. reflexivity.
Defined.

(** C1, as the code has it.  At each page of a term's run: when the
    response has no results container (an empty, blocked or malformed
    document) the page adds nothing and the run goes on with the next
    pages; when the request itself raises, nothing catches the exception:
    the run of the term ends there with it, the prices of the earlier
    pages recorded and the later pages not fetched. *)
Theorem fetch_outcome_at_page (net : network) (search_term : string)
        (before after : list nat) (p : nat) (d d1 : price_dict) :
  page_range = before ++ p :: after ->
  for_each (scrape_page net (keywords_of search_term)) before d
  = (d1, Ok tt) ->
  scrape_ebay_for_term net search_term d =
  match net (search_url (keywords_of search_term) p) with
  | Unreachable e => (d1, Raise e)
  | Response doc =>
      match srp_results doc with
      | None =>
          for_each (scrape_page net (keywords_of search_term)) after d1
      | Some listings_section =>
          match for_each (scrape_item (keywords_of search_term))
                         (find_all_items listings_section) d1 with
          | (d2, Ok _) =>
              for_each (scrape_page net (keywords_of search_term)) after d2
          | (d2, Raise e) => (d2, Raise e)
          end
      end
  end.
Proof.
  intros Hrange Hbefore. unfold scrape_ebay_for_term.
  rewrite Hrange, scrape_pages_split, Hbefore.
  unfold scrape_page at 1, fetch_listings.
  destruct (net _) as [doc|e]; [|reflexivity].
  now destruct (srp_results doc).
Qed.

Lemma fetch_outcome_at_page_witness :
  page_range = [] ++ 1 :: seq 2 12
  /\ for_each (scrape_page net_unreachable (keywords_of "Ryzen 5")) [] []
     = ([], Ok tt)
  /\ scrape_ebay_for_term net_unreachable "Ryzen 5" []
     = ([], Raise ConnectionError).
Proof.
  split; [reflexivity|]. split; [reflexivity|].
  rewrite (fetch_outcome_at_page net_unreachable "Ryzen 5" [] (seq 2 12) 1
             [] [] eq_refl eq_refl).
  reflexivity.
Defined.

(** C1 as stated fails: a page that cannot be fetched is not treated as
    a page without listings.  With page 1 unreachable and an admissible
    listing on page 2, the term's run raises instead of recording that
    listing, and [main] ends with the exception and writes no table. *)
Lemma fetch_failure_not_recovered :
  ~ (forall (net : network) (search_term : string) (before after : list nat)
            (p : nat) (e : exn) (d : price_dict),
        page_range = before ++ p :: after ->
        net (search_url (keywords_of search_term) p) = Unreachable e ->
        scrape_ebay_for_term net search_term d =
        for_each (scrape_page net (keywords_of search_term))
                 (before ++ after) d)
  /\ scrape_ebay_for_term net_unreachable "Ryzen 5" []
     = ([], Raise ConnectionError)
  /\ for_each (scrape_page net_unreachable (keywords_of "Ryzen 5"))
              (seq 2 12) []
     = ([("Jan 5, 2024", [PyFloat.lit "100.0"])], Ok tt)
  /\ snd (main net_unreachable one_term) = Raise ConnectionError
  /\ average_prices_csv (fst (main net_unreachable one_term)) = None.
Proof.
  assert (H1 : scrape_ebay_for_term net_unreachable "Ryzen 5" []
               = ([], Raise ConnectionError)) by reflexivity.
  assert (H2 : for_each (scrape_page net_unreachable (keywords_of "Ryzen 5"))
                        (seq 2 12) []
               = ([("Jan 5, 2024", [PyFloat.lit "100.0"])], Ok tt))
    by (vm_compute; reflexivity).
  split; [|repeat split; assumption].
  intros H.
  specialize (H net_unreachable "Ryzen 5" [] (seq 2 12) 1 ConnectionError []
                eq_refl eq_refl).
  change (([] : list nat) ++ seq 2 12) with (seq 2 12) in H.
  rewrite H1, H2 in H. discriminate H.
Qed.

(** [parse_listing] never raises [ValueError]: the handler of the loop
    cannot catch what it raises. *)
Lemma parse_listing_not_ValueError (it : item) :
  parse_listing it <> Raise ValueError.
Proof.
  unfold parse_listing.
  destruct (s_item__title it); simpl; [|discriminate].
  destruct (s_item__price it); simpl; [|discriminate].
  destruct (POSITIVE it) as [d|]; simpl; [|discriminate].
  destruct (string_ d); simpl; [|discriminate].
  destruct (s_item__link it) as [l|]; simpl; [|discriminate].
  destruct (href l); simpl; discriminate.
Qed.

(** A listing without one of its required tags makes [parse_listing]
    raise, and the loop over the listings of the page ends there with the
    exception: the listings after it are not looked at. *)
Lemma missing_field_raises (search_keywords : list string) (it : item)
      (rest : list item) (d : price_dict) :
  s_item__title it = None \/ s_item__price it = None
  \/ POSITIVE it = None \/ s_item__link it = None ->
  exists e,
    e <> ValueError
    /\ for_each (scrape_item search_keywords) (it :: rest) d = (d, Raise e).
Proof.
  intros H.
  assert (Hraise : exists e, parse_listing it = Raise e).
  { unfold parse_listing.
    destruct (s_item__title it); simpl; [|eauto].
    destruct (s_item__price it); simpl; [|eauto].
    destruct (POSITIVE it) as [t|]; simpl; [|eauto].
    destruct (string_ t); simpl; [|eauto].
    destruct (s_item__link it); simpl; [|eauto].
    destruct H as [H|[H|[H|H]]]; discriminate H. }
  destruct Hraise as [e He]. exists e.
  assert (Hne : e <> ValueError).
  { intros ->. exact (parse_listing_not_ValueError it He). }
  split; [exact Hne|].
  simpl. unfold scrape_item, listing_observation. rewrite He. simpl.
  destruct e; congruence.
Qed.

(** What the handler does catch: a price that [float] cannot read drops
    the listing alone. *)
Lemma unreadable_price_skipped (search_keywords : list string) (it : item)
      (d : price_dict) (title price date link condition : string) :
  parse_listing it = Ok (title, price, date, link, condition) ->
  process_price price = Raise ValueError ->
  scrape_item search_keywords it d = (d, Ok tt).
Proof.
  intros Hparse Hprice. unfold scrape_item, listing_observation.
  rewrite Hparse. simpl.
  destruct (is_valid_title title search_keywords); [|reflexivity].
  now rewrite Hprice.
Qed.

(** C2 fails on the code.  A page holding a listing without title tag
    followed by an admissible listing: the page raises [AttributeError]
    and records nothing, although the second listing alone is recorded;
    the exception leaves the term's run and [main], and no table is
    written. *)
Theorem missing_field_aborts_page :
  scrape_page net_missing_title (keywords_of "Ryzen 5") 1 []
  = ([], Raise AttributeError)
  /\ scrape_page net_good (keywords_of "Ryzen 5") 1 []
     = ([("Jan 5, 2024", [PyFloat.lit "100.0"])], Ok tt)
  /\ scrape_ebay_for_term net_missing_title "Ryzen 5" []
     = ([], Raise AttributeError)
  /\ snd (main net_missing_title one_term) = Raise AttributeError
  /\ average_prices_csv (fst (main net_missing_title one_term)) = None.
Proof. repeat split; vm_compute; reflexivity. Qed.

(** C8, as the code has it.  Without the term list, [main] prints the
    error that names the file and returns; nothing is fetched, and the
    output file is left as it was (none is created). *)
Theorem main_without_term_list (net : network) (w : world) :
  search_terms_csv w = None ->
  main net w =
  (print "Error: 'search_terms.csv' not found. Make sure the file exists." w,
   Ok tt)
  /\ average_prices_csv (fst (main net w)) = average_prices_csv w
  /\ stdout (fst (main net w)) =
     stdout w
     ++ ["Error: 'search_terms.csv' not found. Make sure the file exists."].
Proof.
  intros H. unfold main. rewrite H. repeat split.
Qed.

Lemma main_without_term_list_witness :
  search_terms_csv no_term_list = None
  /\ main net_good no_term_list =
     ({| search_terms_csv := None;
         average_prices_csv := None;
         stdout := ["Error: 'search_terms.csv' not found. Make sure the file exists."] |},
      Ok tt).
Proof.
  split; [reflexivity|].
  destruct (main_without_term_list net_good no_term_list eq_refl) as (H & _).
  rewrite H. reflexivity.
Defined.

(** C8 as stated fails in its last part: the absence of the term list is
    not the only way for a run to end without output.  With the term list
    present and page 1 unreachable, the run ends with the exception and
    no table is written. *)
Lemma run_aborts_with_term_list_present :
  ~ (forall (net : network) (w : world),
        average_prices_csv w = None ->
        average_prices_csv (fst (main net w)) = None ->
        search_terms_csv w = None)
  /\ search_terms_csv one_term = Some [["Ryzen 5"]]
  /\ snd (main net_unreachable one_term) = Raise ConnectionError
  /\ average_prices_csv (fst (main net_unreachable one_term)) = None.
Proof.
  split; [|repeat split].
  intros H. specialize (H net_unreachable one_term eq_refl eq_refl).
  discriminate H.
Qed.

End PageFacts.

(* ================================================================= *)
(** ** Recording prices and averaging them *)

Section AggregationFacts.
Import PyStr PyDict Scraper Main Notions Examples.

Lemma get_set {V : Type} (k k0 : string) (v0 : V) (d : dict V) :
  get k (set k0 v0 d) = if String.eqb k k0 then Some v0 else get k d.
Proof.
  induction d as [|[k' v'] d IH]; simpl; [reflexivity|].
  destruct (String.eqb_spec k0 k') as [->|Hne]; simpl.
  - now destruct (String.eqb k k').
  - rewrite IH. destruct (String.eqb_spec k k') as [->|_]; [|reflexivity].
    destruct (String.eqb_spec k' k0); [congruence | reflexivity].
Qed.

Lemma get_record_price (k date : string) (p : PyFloat.float)
      (d : price_dict) :
  get k (record_price date p d) =
  if String.eqb k date
  then Some (match get date d with
             | Some prices => prices ++ [p]
             | None => [p]
             end)
  else get k d.
Proof.
  unfold record_price, mem.
  destruct (get date d) as [prices|] eqn:Hd; simpl.
  - rewrite Hd, get_set. reflexivity.
  - rewrite get_set, String.eqb_refl, !get_set.
    now destruct (String.eqb k date).
Qed.

Lemma record_all_cons (o : string * PyFloat.float)
      (obs : list (string * PyFloat.float)) (d : price_dict) :
  record_all (o :: obs) d = record_all obs (record_price (fst o) (snd o) d).
Proof. reflexivity. Qed.

Lemma record_all_app (obs1 obs2 : list (string * PyFloat.float))
      (d : price_dict) :
  record_all (obs1 ++ obs2) d = record_all obs2 (record_all obs1 d).
Proof. apply fold_left_app. Qed.

(** The prices recorded for a date are those it had, followed by the
    observed ones in order. *)
Lemma get_record_all (k : string) (obs : list (string * PyFloat.float)) :
  forall d,
    get k (record_all obs d) =
    match get k d, prices_on k obs with
    | None, [] => None
    | None, ps => Some ps
    | Some l, ps => Some (l ++ ps)
    end.
Proof.
  induction obs as [|[date p] obs IH]; intros d.
  - simpl. destruct (get k d); [now rewrite app_nil_r | reflexivity].
  - rewrite record_all_cons, IH, get_record_price. simpl fst; simpl snd.
    unfold prices_on. simpl.
    destruct (String.eqb_spec k date) as [->|_]; simpl.
    + destruct (get date d); [now rewrite <- app_assoc | reflexivity].
    + reflexivity.
Qed.

Lemma keys_set {V : Type} (k : string) (v : V) (d : dict V) :
  keys (set k v d) = if mem k d then keys d else keys d ++ [k].
Proof.
  unfold mem, keys. induction d as [|[k' v'] d IH]; simpl; [reflexivity|].
  destruct (String.eqb k k'); simpl; [reflexivity|].
  rewrite IH. now destruct (get k d).
Qed.

Lemma get_None_keys {V : Type} (k : string) (d : dict V) :
  get k d = None <-> ~ In k (keys d).
Proof.
  unfold keys. induction d as [|[k' v'] d IH]; simpl; [tauto|].
  destruct (String.eqb_spec k k') as [->|Hne].
  - split; [discriminate | tauto].
  - rewrite IH. split; [intros H [E|I]; [congruence | tauto] | tauto].
Qed.

Lemma NoDup_keys_set {V : Type} (k : string) (v : V) (d : dict V) :
  NoDup (keys d) -> NoDup (keys (set k v d)).
Proof.
  intros H. rewrite keys_set. unfold mem.
  destruct (get k d) eqn:E; [assumption|].
  apply get_None_keys in E.
  apply NoDup_rev in H. rewrite <- (rev_involutive (keys d ++ [k])).
  apply NoDup_rev. rewrite rev_app_distr. simpl.
  constructor; [now rewrite <- in_rev | assumption].
Qed.

Lemma well_formed_empty : well_formed [].
Proof. split; [constructor | discriminate]. Qed.

Lemma well_formed_record_price (date : string) (p : PyFloat.float)
      (d : price_dict) :
  well_formed d -> well_formed (record_price date p d).
Proof.
  intros [Hnd Hne]. split.
  - unfold record_price.
    set (d1 := if negb (mem date d) then set date [] d else d).
    assert (Hnd1 : NoDup (keys d1)).
    { subst d1. destruct (negb (mem date d)); auto using NoDup_keys_set. }
    destruct (get date d1); auto using NoDup_keys_set.
  - intros k l. rewrite get_record_price.
    destruct (String.eqb k date); [|apply Hne].
    intros [= <-]. destruct (get date d) as [[|x xs]|]; discriminate.
Qed.

Lemma well_formed_record_all (obs : list (string * PyFloat.float)) :
  forall d, well_formed d -> well_formed (record_all obs d).
Proof.
  induction obs as [|o obs IH]; intros d Hd; [assumption|].
  rewrite record_all_cons. auto using well_formed_record_price.
Qed.

Lemma average_nonempty (prices : list PyFloat.float) :
  prices <> [] -> average prices = Ok (PyFloat.round2 (mean prices)).
Proof. destruct prices; [congruence | reflexivity]. Qed.

(** The comprehension of [main] over a well-formed dict raises nothing
    and maps each date to the rounded mean of its prices. *)
Lemma averages_from_spec (items : price_dict) :
  forall acc,
    well_formed items ->
    exists averages,
      averages_from acc items = Ok averages
      /\ forall k,
          get k averages =
          match get k items with
          | Some l => Some (PyFloat.round2 (mean l))
          | None => get k acc
          end.
Proof.
  induction items as [|[date ps] rest IH]; intros acc [Hnd Hne].
  - exists acc. split; reflexivity.
  - simpl in Hnd. inversion Hnd as [|? ? Hnotin Hnd']; subst.
    assert (Hrest : get date rest = None) by now apply get_None_keys.
    assert (Hps : ps <> []).
    { apply (Hne date). simpl. now rewrite String.eqb_refl. }
    assert (Hwf : well_formed rest).
    { split; [assumption|]. intros k l Hk. apply (Hne k). simpl.
      destruct (String.eqb_spec k date) as [->|]; [congruence | assumption]. }
    destruct (IH (set date (PyFloat.round2 (mean ps)) acc) Hwf)
      as (averages & Havg & Hget).
    exists averages. split.
    + simpl. rewrite (average_nonempty ps Hps). exact Havg.
    + intros k. rewrite Hget. simpl. rewrite get_set.
      destruct (String.eqb_spec k date) as [->|_].
      * now rewrite Hrest.
      * reflexivity.
Qed.

(** The loop over the listings of a page records the observations of the
    page, when it raises nothing. *)
Lemma scrape_items_record (search_keywords : list string)
      (items : list item) :
  forall d d',
    for_each (scrape_item search_keywords) items d = (d', Ok tt) ->
    d' = record_all (observations search_keywords items) d.
Proof.
  induction items as [|it items IH]; intros d d' H; simpl in H.
  - now injection H as <-.
  - unfold observations. simpl. fold (observations search_keywords items).
    rewrite record_all_app. unfold scrape_item in H.
    destruct (listing_observation search_keywords it) as [[[date p]|]|e].
    + apply IH in H. exact H.
    + apply IH in H. exact H.
    + destruct e; try discriminate H. apply IH in H. exact H.
Qed.

Lemma scrape_pages_record (net : network) (search_keywords : list string)
      (pages : list nat) :
  forall d d',
    for_each (scrape_page net search_keywords) pages d = (d', Ok tt) ->
    d' = record_all (flat_map (page_observations net search_keywords) pages) d.
Proof.
  induction pages as [|p pages IH]; intros d d' H; simpl in H.
  - now injection H as <-.
  - simpl. rewrite record_all_app.
    unfold scrape_page, page_observations in *.
    destruct (fetch_listings net search_keywords p) as [[sec|]|e].
    + destruct (for_each (scrape_item search_keywords) (find_all_items sec) d)
        as [d1 [[]|e]] eqn:Hitems; [|discriminate H].
      apply scrape_items_record in Hitems. subst d1. now apply IH.
    + now apply IH.
    + discriminate H.
Qed.

(** C7, as the code has it.  When the run of a term completes, the
    averages computed from its dict hold, for every date with an admitted
    observation, the mean of the admitted prices of that date (their sum
    divided by their number) rounded to 2 decimal places, and nothing for
    any other date; no error arises, and a term without admitted
    observation gets the empty mapping.  The same holds of any sequence
    of observations recorded from the empty dict. *)
Theorem daily_averages_rounded_mean :
  (forall obs : list (string * PyFloat.float),
      exists averages,
        daily_averages (record_all obs []) = Ok averages
        /\ forall date,
            get date averages =
            match prices_on date obs with
            | [] => None
            | ps => Some (PyFloat.round2 (mean ps))
            end)
  /\ (forall (net : network) (search_term : string) (d : price_dict),
         scrape_ebay_for_term net search_term [] = (d, Ok tt) ->
         exists averages,
           daily_averages d = Ok averages
           /\ forall date,
               get date averages =
               match prices_on date (term_observations net search_term) with
               | [] => None
               | ps => Some (PyFloat.round2 (mean ps))
               end)
  /\ daily_averages (record_all two_days [])
     = Ok [("2024-01-01", PyFloat.lit "150.0");
           ("2024-01-02", PyFloat.lit "50.0")]
  /\ daily_averages (record_all [] []) = Ok [].
Proof.
  assert (Hobs : forall obs : list (string * PyFloat.float),
             exists averages,
               daily_averages (record_all obs []) = Ok averages
               /\ forall date,
                   get date averages =
                   match prices_on date obs with
                   | [] => None
                   | ps => Some (PyFloat.round2 (mean ps))
                   end).
  { intros obs.
    destruct (averages_from_spec (record_all obs []) []
                (well_formed_record_all obs [] well_formed_empty))
      as (averages & Havg & Hget).
    exists averages. split; [exact Havg|].
    intros date. rewrite Hget, get_record_all. simpl.
    now destruct (prices_on date obs). }
  split; [exact Hobs|]. split; [|split; vm_compute; reflexivity].
  intros net search_term d Hrun.
  apply scrape_pages_record in Hrun. subst d. apply Hobs.
Qed.

Lemma daily_averages_rounded_mean_witness :
  scrape_ebay_for_term net_good "Ryzen 5" []
  = ([("Jan 5, 2024", [PyFloat.lit "100.0"])], Ok tt)
  /\ exists averages,
      daily_averages [("Jan 5, 2024", [PyFloat.lit "100.0"])] = Ok averages
      /\ get "Jan 5, 2024" averages = Some (PyFloat.lit "100.0").
Proof.
  assert (Hrun : scrape_ebay_for_term net_good "Ryzen 5" []
                 = ([("Jan 5, 2024", [PyFloat.lit "100.0"])], Ok tt))
    by (vm_compute; reflexivity).
  split; [exact Hrun|].
  destruct daily_averages_rounded_mean as (_ & Hterm & _).
  destruct (Hterm net_good "Ryzen 5" _ Hrun) as (averages & Havg & Hget).
  exists averages. split; [exact Havg|].
  rewrite Hget. vm_compute. reflexivity.
Defined.

(** C7 as stated fails: the average is not the mean itself.  Three sales
    of one day at 100, 100 and 101 have the mean 301 / 3, and the value
    computed for the day is 100.33. *)
Lemma average_is_not_the_mean :
  ~ (forall (obs : list (string * PyFloat.float)) (date : string),
        prices_on date obs <> [] ->
        exists averages,
          daily_averages (record_all obs []) = Ok averages
          /\ get date averages = Some (mean (prices_on date obs)))
  /\ daily_averages (record_all one_day [])
     = Ok [("2024-01-01", PyFloat.lit "100.33")]
  /\ mean (prices_on "2024-01-01" one_day) = PyFloat.lit "100.33333333333333".
Proof.
  assert (Hcode : daily_averages (record_all one_day [])
                  = Ok [("2024-01-01", PyFloat.lit "100.33")])
    by (vm_compute; reflexivity).
  split; [|split; [exact Hcode | vm_compute; reflexivity]].
  intros H.
  destruct (H one_day "2024-01-01") as (averages & Havg & Hget).
  - vm_compute. discriminate.
  - rewrite Hcode in Havg. injection Havg as <-.
    vm_compute in Hget. discriminate Hget.
Qed.

End AggregationFacts.

(* ================================================================= *)
(** ** The columns of the table *)

Section TableFacts.
Import PyStr PyDict Scraper Main Notions Examples.

Lemma In_set_of (x : string) (l : list string) :
  In x (set_of l) <-> In x l.
Proof.
  induction l as [|y l IH]; simpl; [tauto|].
  destruct (in_list y l) eqn:E.
  - rewrite IH. apply in_list_In in E. split; [tauto|].
    intros [<-|H]; assumption.
  - simpl. rewrite IH. tauto.
Qed.

Lemma NoDup_set_of (l : list string) : NoDup (set_of l).
Proof.
  induction l as [|y l IH]; simpl; [constructor|].
  destruct (in_list y l) eqn:E; [assumption|].
  constructor; [|assumption].
  rewrite In_set_of. intros H. apply in_list_In in H. congruence.
Qed.

Lemma insert_sorted_perm (x : string) (l : list string) :
  Permutation (x :: l) (insert_sorted x l).
Proof.
  induction l as [|y l IH]; simpl; [reflexivity|].
  destruct (String.ltb y x); [|reflexivity].
  rewrite perm_swap. now constructor.
Qed.

Lemma sorted_perm (l : list string) : Permutation l (sorted l).
Proof.
  induction l as [|x l IH]; simpl; [reflexivity|].
  rewrite <- insert_sorted_perm. now constructor.
Qed.

(** The order of [str]: [ltb] is asymmetric, and two different strings
    are ordered one way or the other. *)
Lemma ltb_asym (a b : string) :
  String.ltb a b = true -> String.ltb b a = false.
Proof.
  unfold String.ltb. rewrite (String.compare_antisym a b).
  now destruct (String.compare b a).
Qed.

Lemma ltb_connected (a b : string) :
  a <> b -> String.ltb b a = false -> String.ltb a b = true.
Proof.
  unfold String.ltb. intros Hne. rewrite (String.compare_antisym a b).
  destruct (String.compare b a) eqn:E; simpl; try congruence.
  apply String.compare_eq_iff in E. congruence.
Qed.

Lemma insert_sorted_HdRel (a x : string) (l : list string) :
  not_above a x -> HdRel not_above a l ->
  HdRel not_above a (insert_sorted x l).
Proof.
  intros Hax H. destruct l as [|y l]; simpl; [now constructor|].
  inversion H; subst. destruct (String.ltb y x); now constructor.
Qed.

Lemma insert_sorted_Sorted (x : string) (l : list string) :
  Sorted not_above l -> Sorted not_above (insert_sorted x l).
Proof.
  induction 1 as [|y l Hl IH Hhd]; simpl; [repeat constructor|].
  destruct (String.ltb y x) eqn:E.
  - constructor; [assumption|].
    apply insert_sorted_HdRel; [|assumption]. now apply ltb_asym.
  - constructor; [now constructor|]. now constructor.
Qed.

Lemma sorted_Sorted (l : list string) : Sorted not_above (sorted l).
Proof.
  induction l as [|x l IH]; simpl; [constructor|].
  now apply insert_sorted_Sorted.
Qed.

Lemma ascii_compare_lt_trans (a b c : ascii) :
  Ascii.compare a b = Lt -> Ascii.compare b c = Lt -> Ascii.compare a c = Lt.
Proof. unfold Ascii.compare. rewrite !N.compare_lt_iff. apply N.lt_trans. Qed.

Lemma compare_lt_trans (a : string) :
  forall b c,
    String.compare a b = Lt -> String.compare b c = Lt ->
    String.compare a c = Lt.
Proof.
  induction a as [|x a IH]; intros [|y b] [|z c]; simpl;
    try discriminate; auto.
  destruct (Ascii.compare x y) eqn:Exy; try discriminate;
    destruct (Ascii.compare y z) eqn:Eyz; try discriminate.
  - apply Ascii.compare_eq_iff in Exy, Eyz. subst.
    unfold Ascii.compare. rewrite N.compare_refl. apply IH.
  - apply Ascii.compare_eq_iff in Exy. subst. now rewrite Eyz.
  - apply Ascii.compare_eq_iff in Eyz. subst. now rewrite Exy.
  - now rewrite (ascii_compare_lt_trans x y z Exy Eyz).
Qed.

Lemma below_trans (a b c : string) : below a b -> below b c -> below a c.
Proof.
  unfold below, String.ltb. intros Hab Hbc.
  destruct (String.compare a b) eqn:Eab; try discriminate.
  destruct (String.compare b c) eqn:Ebc; try discriminate.
  now rewrite (compare_lt_trans a b c Eab Ebc).
Qed.

Lemma Sorted_NoDup_ascending (l : list string) :
  Sorted not_above l -> NoDup l -> ascending l.
Proof.
  intros Hs Hnd. apply Sorted_StronglySorted.
  { intros a b c. apply below_trans. }
  induction Hs as [|x l Hl IH Hhd]; [constructor|].
  inversion Hnd as [|? ? Hnotin Hnd']; subst.
  constructor; [auto|].
  destruct Hhd as [|y l' Hxy]; constructor.
  apply ltb_connected; [|exact Hxy].
  intros ->. apply Hnotin. now left.
Qed.

(** C3, as the code has it.  The date columns of the table are the keys
    of all the terms' averages, each once, in ascending order of the date
    texts compared as strings (code point by code point); the header row
    is [CPU Name] followed by them. *)
Theorem all_dates_sorted_union (summary_data : dict (dict PyFloat.float)) :
  NoDup (all_dates summary_data)
  /\ (forall date,
         In date (all_dates summary_data) <->
         exists search_term averages,
           In (search_term, averages) summary_data
           /\ In date (keys averages))
  /\ ascending (all_dates summary_data)
  /\ hd [] (table summary_data)
     = Text "CPU Name" :: map Text (all_dates summary_data).
Proof.
  assert (Hnd : NoDup (all_dates summary_data)).
  { unfold all_dates. eapply Permutation_NoDup; [apply sorted_perm|].
    apply NoDup_set_of. }
  split; [exact Hnd|]. split; [|split; [|reflexivity]].
  - intros date. unfold all_dates.
    rewrite <- (Permutation_in' eq_refl (sorted_perm _)).
    rewrite In_set_of, in_flat_map. unfold values. split.
    + intros (averages & Hin & Hdate). apply in_map_iff in Hin.
      destruct Hin as ([search_term a] & <- & Hin). eauto.
    + intros (search_term & averages & Hin & Hdate).
      exists averages. split; [|assumption].
      apply in_map_iff. now exists (search_term, averages).
  - apply Sorted_NoDup_ascending; [apply sorted_Sorted | exact Hnd].
Qed.

(** C3 as stated fails: the columns are not in chronological order.  For
    a term sold on 5 January and on 1 February 2024 the columns are
    [Feb 1, 2024] and then [Jan 5, 2024], in the averages and in the table
    that a run writes. *)
Lemma columns_not_chronological :
  ~ (forall summary_data : dict (dict PyFloat.float),
        chronological (all_dates summary_data))
  /\ all_dates two_months = ["Feb 1, 2024"; "Jan 5, 2024"]
  /\ calendar_date "Feb 1, 2024" = Some (2024, 2, 1)%Z
  /\ calendar_date "Jan 5, 2024" = Some (2024, 1, 5)%Z
  /\ average_prices_csv (fst (main net_two_months one_term))
     = Some [[Text "CPU Name"; Text "Feb 1, 2024"; Text "Jan 5, 2024"];
             [Text "Ryzen 5"; Number (PyFloat.lit "120.0");
              Number (PyFloat.lit "100.0")]].
Proof.
  split; [|repeat split; vm_compute; reflexivity].
  intros H. specialize (H two_months).
  change (all_dates two_months) with ["Feb 1, 2024"; "Jan 5, 2024"] in H.
  inversion H as [|? ? _ Hhd]; subst.
  inversion Hhd as [|? ? Hearlier]; subst.
  vm_compute in Hearlier.
  destruct Hearlier as [Hy|[_ [Hm|[Hm _]]]]; discriminate.
Qed.

End TableFacts.

(* ================================================================= *)
(** ** [parse_listing]: what it needs and what it returns *)

Section ParseListingFacts.
Import PyStr PyDict Scraper Main Notions MoreNotions Examples.

Lemma parse_listing_ok_iff (it : item) :
  (exists r, parse_listing it = Ok r) <-> required_present it = true.
Proof.
  unfold parse_listing, required_present.
  destruct (s_item__title it) as [t|]; simpl;
    [|split; [intros [r H]; discriminate H | discriminate]].
  destruct (s_item__price it) as [p|]; simpl;
    [|split; [intros [r H]; discriminate H | discriminate]].
  destruct (POSITIVE it) as [d|]; simpl;
    [|split; [intros [r H]; discriminate H | discriminate]].
  destruct (s_item__link it) as [l|]; simpl.
  - destruct (string_ d); simpl;
      [|split; [intros [r H]; discriminate H | discriminate]].
    destruct (href l); simpl;
      [|split; [intros [r H]; discriminate H | discriminate]].
    split; [reflexivity | eauto].
  - destruct (string_ d); simpl;
      split; try discriminate; intros [r H]; discriminate H.
Qed.

(** X1. [parse_listing] returns exactly when the title, the price, the
    sold date with its text and the link with its [href] are there; the
    condition tag plays no part.  When it raises, the exception is
    [AttributeError] for a missing title, price or sold date (or a sold-date
    tag without a single text), [TypeError] for a missing link tag and
    [KeyError] for a link tag without [href]. *)
Theorem parse_listing_outcome (it : item) :
  ((exists r, parse_listing it = Ok r) <-> required_present it = true)
  /\ (forall e,
         parse_listing it = Raise e ->
         (e = AttributeError
          /\ (s_item__title it = None \/ s_item__price it = None
              \/ POSITIVE it = None
              \/ exists d, POSITIVE it = Some d /\ string_ d = None))
         \/ (e = TypeError /\ s_item__link it = None)
         \/ (e = KeyError
             /\ exists l, s_item__link it = Some l /\ href l = None)).
Proof.
  split; [apply parse_listing_ok_iff|].
  unfold parse_listing.
  destruct (s_item__title it) as [t|]; simpl;
    [|intros e [= <-]; left; auto].
  destruct (s_item__price it) as [p|]; simpl;
    [|intros e [= <-]; left; auto].
  destruct (POSITIVE it) as [d|]; simpl;
    [|intros e [= <-]; left; auto].
  destruct (string_ d) as [ds|] eqn:Hds; simpl;
    [|intros e [= <-]; left; split; [reflexivity|]; right; right; right; eauto].
  destruct (s_item__link it) as [l|]; simpl;
    [|intros e [= <-]; right; left; auto].
  destruct (href l) as [h|] eqn:Hh; simpl; [discriminate|].
  intros e [= <-]. right. right. eauto.
Qed.

Lemma lower_char_not_U (c : ascii) : lower_char c <> "U"%char.
Proof.
  destruct c as [[] [] [] [] [] [] [] []]; vm_compute; discriminate.
Qed.

Lemma lower_not_Unknown (s : string) : lower s <> "Unknown".
Proof.
  destruct s as [|c s]; simpl; [discriminate|].
  intros [= H _]. exact (lower_char_not_U c H).
Qed.

(** X2. The condition that [parse_listing] returns is ["Unknown"] exactly
    when the listing has no condition tag: the text of a tag is lowered,
    so that it never reads ["Unknown"] with its capital. *)
Theorem condition_sentinel (it : item)
        (title price date link condition : string) :
  parse_listing it = Ok (title, price, date, link, condition) ->
  (condition = "Unknown" <-> s_item__subtitle it = None).
Proof.
  unfold parse_listing.
  destruct (s_item__title it); simpl; [|discriminate].
  destruct (s_item__price it); simpl; [|discriminate].
  destruct (POSITIVE it) as [d|]; simpl; [|discriminate].
  destruct (string_ d); simpl; [|discriminate].
  destruct (s_item__link it) as [l|]; simpl; [|discriminate].
  destruct (href l); simpl; [|discriminate].
  intros [= _ _ _ _ <-].
  destruct (s_item__subtitle it) as [c|].
  - split; [|discriminate]. intros H. now apply lower_not_Unknown in H.
  - split; reflexivity.
Qed.

Lemma condition_sentinel_witness :
  parse_listing (without_title good) = Raise AttributeError
  /\ parse_listing good
     = Ok ("amd ryzen 5 3600", "$100.00", "Jan 5, 2024",
           "https://www.ebay.com/itm/1", "pre-owned")
  /\ ("pre-owned" = "Unknown" <-> s_item__subtitle good = None).
Proof.
  split; [reflexivity|]. split; [reflexivity|].
  exact (condition_sentinel good "amd ryzen 5 3600" "$100.00" "Jan 5, 2024"
           "https://www.ebay.com/itm/1" "pre-owned" eq_refl).
Defined.

Lemma split_on_head (sep : ascii) (s : string) :
  exists rest,
    s = (hd "" (split_on sep s) ++ rest)%string
    /\ char_free sep (hd "" (split_on sep s)) = true
    /\ (rest = "" \/ exists r, rest = String sep r).
Proof.
  induction s as [|c s IH]; simpl.
  - exists "". auto.
  - destruct (Ascii.eqb_spec c sep) as [->|Hne].
    + exists (String sep s). simpl. eauto.
    + destruct IH as (rest & Hs & Hfree & Hrest).
      assert (Hc : Ascii.eqb c sep = false) by now apply Ascii.eqb_neq.
      destruct (split_on sep s) as [|t ts]; simpl in *.
      * exists rest. rewrite Hc. split; [now f_equal | auto].
      * exists rest. rewrite Hfree, Hc. split; [now f_equal | auto].
Qed.

(** X3. The link that [parse_listing] returns is the [href] of the link
    tag up to its first question mark: it holds no question mark, and what
    it leaves out of the [href] is nothing or starts with one. *)
Theorem link_without_query (it : item)
        (title price date link condition : string) :
  parse_listing it = Ok (title, price, date, link, condition) ->
  exists l h rest,
    s_item__link it = Some l /\ href l = Some h
    /\ h = (link ++ rest)%string
    /\ char_free "?" link = true
    /\ (rest = "" \/ exists r, rest = String "?" r).
Proof.
  unfold parse_listing.
  destruct (s_item__title it); simpl; [|discriminate].
  destruct (s_item__price it); simpl; [|discriminate].
  destruct (POSITIVE it) as [d|]; simpl; [|discriminate].
  destruct (string_ d); simpl; [|discriminate].
  destruct (s_item__link it) as [l|]; simpl; [|discriminate].
  destruct (href l) as [h|] eqn:Hh; simpl; [|discriminate].
  intros [= _ _ _ <- _].
  destruct (split_on_head "?" h) as (rest & Hs & Hfree & Hrest).
  exists l, h, rest. auto.
Qed.

Lemma link_without_query_witness :
  parse_listing good
  = Ok ("amd ryzen 5 3600", "$100.00", "Jan 5, 2024",
        "https://www.ebay.com/itm/1", "pre-owned")
  /\ exists l h rest,
      s_item__link good = Some l /\ href l = Some h
      /\ h = ("https://www.ebay.com/itm/1" ++ rest)%string
      /\ char_free "?" "https://www.ebay.com/itm/1" = true
      /\ (rest = "" \/ exists r, rest = String "?" r).
Proof.
  split; [reflexivity|].
  exact (link_without_query good "amd ryzen 5 3600" "$100.00" "Jan 5, 2024"
           "https://www.ebay.com/itm/1" "pre-owned" eq_refl).
Defined.

Lemma lstrip_no_lead (s : string) : starts_with_space (lstrip s) = false.
Proof.
  induction s as [|c s IH]; simpl; [reflexivity|].
  destruct (isspace c) eqn:E; [assumption | simpl; assumption].
Qed.

Lemma rstrip_no_trail (s : string) : ends_with_space (rstrip s) = false.
Proof.
  induction s as [|c s IH]; simpl; [reflexivity|].
  destruct (rstrip s) as [|x r] eqn:E.
  - destruct (isspace c) eqn:Hc; simpl; [reflexivity | assumption].
  - exact IH.
Qed.

Lemma rstrip_keeps_lead (s : string) :
  starts_with_space s = false -> starts_with_space (rstrip s) = false.
Proof.
  destruct s as [|c s]; simpl; [reflexivity|]. intros Hc.
  destruct (rstrip s); [rewrite Hc|]; simpl; assumption.
Qed.

Lemma lstrip_fixed (s : string) :
  starts_with_space s = false -> lstrip s = s.
Proof. destruct s as [|c s]; simpl; [reflexivity|]. now intros ->. Qed.

Lemma rstrip_fixed (s : string) :
  ends_with_space s = false -> rstrip s = s.
Proof.
  induction s as [|c s IH]; [reflexivity|].
  destruct s as [|x s'].
  - simpl. now intros ->.
  - intros H. change (ends_with_space (String x s') = false) in H.
    cbn [rstrip]. cbn [rstrip] in IH. rewrite (IH H). reflexivity.
Qed.

Lemma strip_trimmed (s : string) :
  starts_with_space (strip s) = false /\ ends_with_space (strip s) = false.
Proof.
  unfold strip. split.
  - apply rstrip_keeps_lead, lstrip_no_lead.
  - apply rstrip_no_trail.
Qed.

(** X4. The date key that [parse_listing] returns neither starts nor ends
    with whitespace, and stripping it again changes nothing: sold-date
    texts that differ in the whitespace around them give the same key. *)
Theorem date_key_trimmed (it : item)
        (title price date link condition : string) :
  parse_listing it = Ok (title, price, date, link, condition) ->
  starts_with_space date = false
  /\ ends_with_space date = false
  /\ strip date = date.
Proof.
  unfold parse_listing.
  destruct (s_item__title it); simpl; [|discriminate].
  destruct (s_item__price it); simpl; [|discriminate].
  destruct (POSITIVE it) as [d|]; simpl; [|discriminate].
  destruct (string_ d) as [ds|]; simpl; [|discriminate].
  destruct (s_item__link it) as [l|]; simpl; [|discriminate].
  destruct (href l); simpl; [|discriminate].
  intros [= _ _ <- _ _].
  destruct (strip_trimmed (replace "Sold" "" ds)) as [Hs He].
  repeat split; try assumption.
  unfold strip at 1. rewrite (lstrip_fixed _ Hs). now apply rstrip_fixed.
Qed.

Lemma date_key_trimmed_witness :
  parse_listing good
  = Ok ("amd ryzen 5 3600", "$100.00", "Jan 5, 2024",
        "https://www.ebay.com/itm/1", "pre-owned")
  /\ starts_with_space "Jan 5, 2024" = false
  /\ ends_with_space "Jan 5, 2024" = false
  /\ strip "Jan 5, 2024" = "Jan 5, 2024".
Proof.
  split; [reflexivity|].
  exact (date_key_trimmed good "amd ryzen 5 3600" "$100.00" "Jan 5, 2024"
           "https://www.ebay.com/itm/1" "pre-owned" eq_refl).
Defined.

End ParseListingFacts.

(* ================================================================= *)
(** ** [is_valid_title] and the keywords of a term *)

Section TitleFacts.
Import PyStr PyDict Scraper Main Notions MoreNotions Examples.

(** X5. [is_valid_title] looks at the keywords as a set: a title admitted
    for some keywords is admitted for any of them, two lists with the same
    keywords (in another order, or repeated) give the same answer, and
    without keywords every title is admitted. *)
Theorem is_valid_title_keyword_set :
  (forall title l1 l2,
      (forall k, In k l2 -> In k l1) ->
      is_valid_title title l1 = true -> is_valid_title title l2 = true)
  /\ (forall title l1 l2,
         (forall k, In k l1 <-> In k l2) ->
         is_valid_title title l1 = is_valid_title title l2)
  /\ (forall title, is_valid_title title [] = true).
Proof.
  assert (Hsub : forall title l1 l2,
             (forall k, In k l2 -> In k l1) ->
             is_valid_title title l1 = true -> is_valid_title title l2 = true).
  { unfold is_valid_title. intros title l1 l2 Hin H.
    rewrite all_in_spec in *. auto. }
  split; [exact Hsub|]. split; [|reflexivity].
  intros title l1 l2 Hsame.
  destruct (is_valid_title title l1) eqn:E1, (is_valid_title title l2) eqn:E2;
    try reflexivity.
  - rewrite (Hsub title l1 l2) in E2; [discriminate| |assumption].
    intros k. apply Hsame.
  - rewrite (Hsub title l2 l1) in E1; [discriminate| |assumption].
    intros k. apply Hsame.
Qed.

Lemma is_valid_title_keyword_set_witness :
  (forall k, In k ["5"; "ryzen"; "5"] <-> In k ["ryzen"; "5"])
  /\ is_valid_title "amd ryzen 5 3600" ["5"; "ryzen"; "5"]
     = is_valid_title "amd ryzen 5 3600" ["ryzen"; "5"].
Proof.
  assert (H : forall k, In k ["5"; "ryzen"; "5"] <-> In k ["ryzen"; "5"])
    by (intros k; simpl; tauto).
  split; [exact H|].
  destruct is_valid_title_keyword_set as (_ & Hsame & _).
  exact (Hsame "amd ryzen 5 3600" ["5"; "ryzen"; "5"] ["ryzen"; "5"] H).
Defined.

(** The words of two texts joined by a whitespace character are the words
    of the first followed by the words of the second. *)
Lemma split_from_app (c : ascii) (b : string) :
  isspace c = true ->
  forall a tok,
    split_from tok (a ++ String c b) = split_from tok a ++ split b.
Proof.
  intros Hc. induction a as [|x a IH]; intros tok; simpl.
  - rewrite Hc. now destruct tok.
  - destruct (isspace x).
    + destruct tok; simpl; now rewrite IH.
    + apply IH.
Qed.

Lemma split_app (c : ascii) (a b : string) :
  isspace c = true ->
  split (a ++ String c b) = split a ++ split b.
Proof. intros Hc. now apply split_from_app. Qed.

(** X6. Words added to a title never make it lose its admission: a title
    admitted for some keywords is still admitted with any text put before
    or after it, a whitespace character in between. *)
Theorem is_valid_title_longer_title (title more : string) (c : ascii)
        (search_keywords : list string) :
  isspace c = true ->
  is_valid_title title search_keywords = true ->
  is_valid_title (title ++ String c more) search_keywords = true
  /\ is_valid_title (more ++ String c title) search_keywords = true.
Proof.
  unfold is_valid_title. intros Hc H. rewrite all_in_spec in H.
  rewrite !split_app by assumption.
  split; apply all_in_spec; intros k Hk; apply in_or_app; auto.
Qed.

Lemma is_valid_title_longer_title_witness :
  isspace " " = true
  /\ is_valid_title "ryzen 5" ["ryzen"; "5"] = true
  /\ is_valid_title "ryzen 5 3600 boxed" ["ryzen"; "5"] = true
  /\ is_valid_title "3600 boxed ryzen 5" ["ryzen"; "5"] = true.
Proof.
  split; [reflexivity|]. split; [reflexivity|].
  exact (is_valid_title_longer_title "ryzen 5" "3600 boxed" " "
           ["ryzen"; "5"] eq_refl eq_refl).
Defined.

Lemma lower_char_idem (c : ascii) : lower_char (lower_char c) = lower_char c.
Proof. destruct c as [[] [] [] [] [] [] [] []]; reflexivity. Qed.

Lemma lower_idem (s : string) : lower (lower s) = lower s.
Proof.
  induction s as [|c s IH]; simpl; [reflexivity|].
  now rewrite lower_char_idem, IH.
Qed.

Lemma lower_app_inv (s : string) :
  forall a b,
    lower s = (a ++ b)%string ->
    exists a' b', s = (a' ++ b')%string /\ lower a' = a /\ lower b' = b.
Proof.
  induction s as [|c s IH]; intros a b H; simpl in H.
  - symmetry in H. apply append_eq_nil in H as [-> ->]. now exists "", "".
  - destruct a as [|x a]; simpl in H.
    + exists "", (String c s). subst b. auto.
    + injection H as <- H. destruct (IH a b H) as (a' & b' & -> & <- & <-).
      exists (String c a'), b'. auto.
Qed.

(** X7. The keywords of a term are its words in lower case: none is
    empty or holds whitespace, each is its own lower case, and the letter
    case of the term does not matter. *)
Theorem keywords_normalized (search_term : string) :
  (forall k,
      In k (keywords_of search_term) ->
      k <> "" /\ no_space k = true /\ lower k = k)
  /\ keywords_of (lower search_term) = keywords_of search_term.
Proof.
  unfold keywords_of. split; [|now rewrite lower_idem].
  intros k Hk. apply In_split in Hk as (Hne & Hns & pre & post & Hs & _).
  repeat split; try assumption.
  apply lower_app_inv in Hs as (pre' & rest & _ & _ & Hrest).
  apply lower_app_inv in Hrest as (k' & post' & _ & <- & _).
  apply lower_idem.
Qed.

End TitleFacts.

(* ================================================================= *)
(** ** [process_price] and the handler of the loop over the listings *)

Section PriceFacts.
Import PyStr PyDict Scraper Main Notions MoreNotions Examples.

Lemma replace_char (c : ascii) (s : string) :
  replace (String c "") "" s = drop_char c s.
Proof.
  unfold replace. induction s as [|x s IH]; simpl; [reflexivity|].
  destruct (ascii_dec c x) as [<-|Hne].
  - rewrite Ascii.eqb_refl. destruct s; exact IH.
  - assert (E : Ascii.eqb x c = false)
      by (apply Ascii.eqb_neq; congruence).
    rewrite E. now rewrite IH.
Qed.

Lemma drop_char_free (c : ascii) (s : string) :
  char_free c (drop_char c s) = true.
Proof.
  induction s as [|x s IH]; simpl; [reflexivity|].
  destruct (Ascii.eqb x c) eqn:E; simpl; [assumption|]. now rewrite E.
Qed.

Lemma drop_char_keeps_free (c c' : ascii) (s : string) :
  char_free c s = true -> char_free c (drop_char c' s) = true.
Proof.
  induction s as [|x s IH]; simpl; [reflexivity|].
  intros H. apply andb_true_iff in H as [Hx Hs].
  destruct (Ascii.eqb x c'); simpl; [auto|]. now rewrite Hx, IH.
Qed.

Lemma drop_char_fixed (c : ascii) (s : string) :
  char_free c s = true -> drop_char c s = s.
Proof.
  induction s as [|x s IH]; simpl; [reflexivity|].
  intros H. apply andb_true_iff in H as [Hx Hs].
  apply negb_true_iff in Hx. now rewrite Hx, IH.
Qed.

Lemma drop_char_app (c : ascii) (a b : string) :
  drop_char c (a ++ b) = (drop_char c a ++ drop_char c b)%string.
Proof.
  induction a as [|x a IH]; simpl; [reflexivity|].
  destruct (Ascii.eqb x c); simpl; now rewrite IH.
Qed.

Lemma strip_currency_drop (price : string) :
  strip_currency price = drop_char "," (drop_char "$" price).
Proof. unfold strip_currency. now rewrite !replace_char. Qed.

Lemma strip_currency_idem (price : string) :
  strip_currency (strip_currency price) = strip_currency price.
Proof.
  rewrite !strip_currency_drop.
  rewrite (drop_char_fixed "$" (drop_char "," (drop_char "$" price))).
  - apply drop_char_fixed, drop_char_free.
  - apply drop_char_keeps_free, drop_char_free.
Qed.

(** X8. [process_price] reads a price text without any of its dollar
    signs and commas: the cleaned text holds neither, cleaning it again
    changes nothing, and a dollar sign or a comma put anywhere into a text
    does not change what [process_price] returns or raises. *)
Theorem process_price_ignores_currency (a b : string) :
  char_free "$" (strip_currency (a ++ b)) = true
  /\ char_free "," (strip_currency (a ++ b)) = true
  /\ process_price (strip_currency (a ++ b)) = process_price (a ++ b)
  /\ process_price (a ++ String "$" b) = process_price (a ++ b)
  /\ process_price (a ++ String "," b) = process_price (a ++ b).
Proof.
  split; [|split; [|split; [|split]]].
  - rewrite strip_currency_drop. apply drop_char_keeps_free, drop_char_free.
  - rewrite strip_currency_drop. apply drop_char_free.
  - unfold process_price. now rewrite strip_currency_idem.
  - unfold process_price. rewrite !strip_currency_drop, !drop_char_app.
    reflexivity.
  - unfold process_price. rewrite !strip_currency_drop, !drop_char_app.
    reflexivity.
Qed.

Lemma sum_floats_only_ValueError (tokens : list string) :
  forall acc e, sum_floats acc tokens = Raise e -> e = ValueError.
Proof.
  induction tokens as [|t rest IH]; intros acc e; simpl; [discriminate|].
  destruct (String.eqb t "to"); [apply IH|].
  destruct (PyFloat.of_string t) as [x|]; simpl; [apply IH|].
  now intros [= <-].
Qed.

Lemma process_price_only_ValueError (price : string) (e : exn) :
  process_price price = Raise e -> e = ValueError.
Proof.
  unfold process_price. destruct (contains "to" (strip_currency price)).
  - destruct (sum_floats _ _) as [x|e'] eqn:E; simpl; [discriminate|].
    intros [= <-]. eapply sum_floats_only_ValueError; eauto.
  - destruct (PyFloat.of_string _); simpl; [discriminate|]. now intros [= <-].
Qed.

Lemma complete_item_ok (search_keywords : list string) (it : item)
      (d : price_dict) :
  required_present it = true ->
  snd (scrape_item search_keywords it d) = Ok tt.
Proof.
  intros H. apply parse_listing_ok_iff in H as [[[[[t p] dt] l] c] H].
  unfold scrape_item, listing_observation. rewrite H. simpl.
  destruct (is_valid_title t search_keywords); [|reflexivity].
  destruct (process_price p) as [x|e] eqn:E; simpl.
  - now destruct (in_price_bounds x).
  - now rewrite (process_price_only_ValueError p e E).
Qed.

Lemma incomplete_item_raises (search_keywords : list string) (it : item)
      (d : price_dict) :
  required_present it = false ->
  exists e, scrape_item search_keywords it d = (d, Raise e).
Proof.
  intros H. destruct (parse_listing it) as [r|e] eqn:E.
  - assert (H' : required_present it = true)
      by (apply parse_listing_ok_iff; eauto).
    congruence.
  - exists e. unfold scrape_item, listing_observation. rewrite E. simpl.
    destruct e; try reflexivity.
    now contradiction (parse_listing_not_ValueError it).
Qed.

(** X9. The loop over the listings of a page raises exactly when one of
    the listings lacks a required tag: whatever the title, price and date
    texts of complete listings are (a price that is no number, a price out
    of bounds, a title off the term), they never end the page. *)
Theorem page_raises_iff_incomplete (search_keywords : list string)
        (items : list item) (d : price_dict) :
  (exists e, snd (for_each (scrape_item search_keywords) items d) = Raise e)
  <-> exists it, In it items /\ required_present it = false.
Proof.
  revert d. induction items as [|it items IH]; intros d; simpl.
  - split; [intros [e H]; discriminate H | intros (it & [] & _)].
  - destruct (required_present it) eqn:Hreq.
    + pose proof (complete_item_ok search_keywords it d Hreq) as Hok.
      destruct (scrape_item search_keywords it d) as [d' [[]|e]];
        simpl in Hok; [|discriminate Hok].
      rewrite IH. split.
      * intros (x & Hin & Hx). eauto.
      * intros (x & [<-|Hin] & Hx); [congruence | eauto].
    + destruct (incomplete_item_raises search_keywords it d Hreq) as [e He].
      rewrite He. simpl. split; eauto.
Qed.

End PriceFacts.

(* ================================================================= *)
(** ** The run of a term: what it keeps, what it reads *)

Section RunFacts.
Import PyStr PyDict Scraper Main Notions MoreNotions Examples.

(** X10. Recording a price puts it last in the list of its date, makes
    the date a key if it was none (a new key goes last, the others keep
    their order) and leaves the lists of the other dates as they are. *)
Theorem record_price_lookup (date : string) (p : PyFloat.float)
        (d : price_dict) :
  get date (record_price date p d)
  = Some (match get date d with
          | Some prices => prices ++ [p]
          | None => [p]
          end)
  /\ (forall other, other <> date ->
                    get other (record_price date p d) = get other d)
  /\ keys (record_price date p d)
     = if mem date d then keys d else keys d ++ [date].
Proof.
  split; [|split].
  - now rewrite get_record_price, String.eqb_refl.
  - intros other Hne. rewrite get_record_price.
    destruct (String.eqb_spec other date); [contradiction | reflexivity].
  - unfold record_price, mem.
    destruct (get date d) as [prices|] eqn:Hd; simpl.
    + rewrite Hd, keys_set. unfold mem. now rewrite Hd.
    + rewrite get_set, String.eqb_refl, !keys_set. unfold mem.
      now rewrite Hd, get_set, String.eqb_refl.
Qed.

Lemma extends_refl (d : price_dict) : extends d d.
Proof. intros date prices H. exists []. now rewrite app_nil_r. Qed.

Lemma extends_trans (d1 d2 d3 : price_dict) :
  extends d1 d2 -> extends d2 d3 -> extends d1 d3.
Proof.
  intros H12 H23 date prices H.
  destruct (H12 _ _ H) as [m1 H2]. destruct (H23 _ _ H2) as [m2 H3].
  exists (m1 ++ m2). now rewrite app_assoc.
Qed.

Lemma extends_record_price (date : string) (p : PyFloat.float)
      (d : price_dict) :
  extends d (record_price date p d).
Proof.
  intros k prices H. rewrite get_record_price.
  destruct (String.eqb_spec k date) as [->|_].
  - rewrite H. eauto.
  - exists []. now rewrite app_nil_r.
Qed.

Lemma extends_scrape_item (search_keywords : list string) (it : item)
      (d : price_dict) :
  extends d (fst (scrape_item search_keywords it d)).
Proof.
  unfold scrape_item.
  destruct (listing_observation search_keywords it) as [[[date p]|]|e]; simpl.
  - apply extends_record_price.
  - apply extends_refl.
  - destruct e; apply extends_refl.
Qed.

Lemma extends_scrape_page (net : network) (search_keywords : list string)
      (p : nat) (d : price_dict) :
  extends d (fst (scrape_page net search_keywords p d)).
Proof.
  unfold scrape_page.
  destruct (fetch_listings net search_keywords p) as [[sec|]|e]; simpl;
    try apply extends_refl.
  apply (for_each_invariant (scrape_item search_keywords) (extends d));
    [|apply extends_refl].
  intros it s Hs. eapply extends_trans; [exact Hs|].
  apply extends_scrape_item.
Qed.

(** X11. A term's run only adds prices: whatever the pages hold and
    however the run ends, each date of the dict it was given is still a key
    afterwards, with the prices it had in front, in their order. *)
Theorem scrape_only_appends (net : network) (search_term : string)
        (d : price_dict) (date : string) (prices : list PyFloat.float) :
  get date d = Some prices ->
  exists more,
    get date (fst (scrape_ebay_for_term net search_term d))
    = Some (prices ++ more).
Proof.
  assert (H : extends d (fst (scrape_ebay_for_term net search_term d))).
  { unfold scrape_ebay_for_term.
    apply (for_each_invariant _ (extends d)); [|apply extends_refl].
    intros p s Hs. eapply extends_trans; [exact Hs|].
    apply extends_scrape_page. }
  apply H.
Qed.

Lemma scrape_only_appends_witness :
  get "Jan 5, 2024" [("Jan 5, 2024", [PyFloat.lit "50.0"])]
  = Some [PyFloat.lit "50.0"]
  /\ exists more,
      get "Jan 5, 2024"
          (fst (scrape_ebay_for_term net_good "Ryzen 5"
                  [("Jan 5, 2024", [PyFloat.lit "50.0"])]))
      = Some ([PyFloat.lit "50.0"] ++ more).
Proof.
  split; [reflexivity|].
  exact (scrape_only_appends net_good "Ryzen 5"
           [("Jan 5, 2024", [PyFloat.lit "50.0"])] "Jan 5, 2024"
           [PyFloat.lit "50.0"] eq_refl).
Defined.

Lemma for_each_ext {A S : Type} (body1 body2 : A -> S -> S * result unit)
      (l : list A) :
  (forall x, In x l -> forall s, body1 x s = body2 x s) ->
  forall s, for_each body1 l s = for_each body2 l s.
Proof.
  induction l as [|x l IH]; intros H s; simpl; [reflexivity|].
  rewrite (H x (or_introl eq_refl)).
  destruct (body2 x s) as [s' [u|e]]; [|reflexivity].
  apply IH. intros y Hy. apply H. now right.
Qed.

(** X12. A term's run reads the remote service at the 13 URLs of its page
    range and nowhere else: two services that answer alike there give the
    same dict and the same outcome, whatever they answer to other pages or
    to other terms. *)
Theorem scrape_reads_only_its_pages (net1 net2 : network)
        (search_term : string) (d : price_dict) :
  same_pages net1 net2 (keywords_of search_term) ->
  scrape_ebay_for_term net1 search_term d
  = scrape_ebay_for_term net2 search_term d.
Proof.
  intros H. unfold scrape_ebay_for_term. apply for_each_ext.
  intros p Hp s. unfold scrape_page, fetch_listings. now rewrite (H p Hp).
Qed.

End RunFacts.

Section RunFacts2.
Import PyStr PyDict Scraper Main Notions MoreNotions Examples MoreExamples.

Lemma scrape_reads_only_its_pages_witness :
  same_pages net_good net_good_then_down (keywords_of "Ryzen 5")
  /\ net_good (search_url (keywords_of "Ryzen 5") 14)
     <> net_good_then_down (search_url (keywords_of "Ryzen 5") 14)
  /\ scrape_ebay_for_term net_good "Ryzen 5" []
     = scrape_ebay_for_term net_good_then_down "Ryzen 5" [].
Proof.
  assert (H : same_pages net_good net_good_then_down (keywords_of "Ryzen 5")).
  { intros p Hp. unfold page_range in Hp. simpl in Hp.
    repeat (destruct Hp as [<-|Hp]; [vm_compute; reflexivity|]).
    destruct Hp. }
  split; [exact H|]. split; [vm_compute; discriminate|].
  exact (scrape_reads_only_its_pages net_good net_good_then_down "Ryzen 5" [] H).
Defined.

Lemma well_formed_scrape_item (search_keywords : list string) (it : item)
      (d : price_dict) :
  well_formed d -> well_formed (fst (scrape_item search_keywords it d)).
Proof.
  intros H. unfold scrape_item.
  destruct (listing_observation search_keywords it) as [[[date p]|]|e]; simpl.
  - now apply well_formed_record_price.
  - assumption.
  - now destruct e.
Qed.

Lemma well_formed_scrape (net : network) (search_term : string)
      (d : price_dict) :
  well_formed d -> well_formed (fst (scrape_ebay_for_term net search_term d)).
Proof.
  intros H. unfold scrape_ebay_for_term.
  apply for_each_invariant; [|assumption].
  intros p s Hs. unfold scrape_page.
  destruct (fetch_listings net (keywords_of search_term) p) as [[sec|]|e];
    simpl; try assumption.
  apply for_each_invariant; [|assumption].
  intros it s'. apply well_formed_scrape_item.
Qed.

(** X13. The averages of a term never divide by zero: the dict that a
    run from the empty dict leaves, complete or cut short by an exception,
    has no date without price, so that [daily_averages] returns, with an
    average for each of its dates and for no other. *)
Theorem averages_of_a_run_defined (net : network) (search_term : string) :
  exists averages,
    daily_averages (fst (scrape_ebay_for_term net search_term [])) = Ok averages
    /\ forall date,
        mem date averages
        = mem date (fst (scrape_ebay_for_term net search_term [])).
Proof.
  pose proof (well_formed_scrape net search_term [] well_formed_empty) as Hwf.
  destruct (averages_from_spec _ [] Hwf) as (averages & Havg & Hget).
  exists averages. split; [exact Havg|].
  intros date. unfold mem. rewrite Hget.
  now destruct (get date (fst (scrape_ebay_for_term net search_term []))).
Qed.

Lemma averages_from_raise (items : price_dict) :
  forall acc,
    (forall e, averages_from acc items = Raise e -> e = ZeroDivisionError)
    /\ ((exists e, averages_from acc items = Raise e)
        <-> exists date, In (date, []) items).
Proof.
  induction items as [|[date ps] rest IH]; intros acc; simpl.
  - split; [discriminate|]. split; [intros [e H]; discriminate H|].
    intros [date []].
  - destruct ps as [|p ps]; simpl.
    + split; [now intros e [= <-]|]. split; eauto.
    + destruct (IH (set date
                      (PyFloat.round2
                         (PyFloat.div (PyFloat.sum (p :: ps))
                            (PyFloat.of_Z (Z.of_nat (S (List.length ps))))))
                      acc)) as [Hexn Hiff].
      split; [exact Hexn|]. rewrite Hiff. split.
      * intros [dt H]. eauto.
      * intros [dt [[= _ H]|H]]; eauto.
Qed.

(** X14. On any dict, [daily_averages] raises exactly when a date has an
    empty list of prices, and what it raises then is [ZeroDivisionError]. *)
Theorem daily_averages_raises_iff (d : price_dict) :
  ((exists e, daily_averages d = Raise e) <-> exists date, In (date, []) d)
  /\ (forall e, daily_averages d = Raise e -> e = ZeroDivisionError).
Proof.
  destruct (averages_from_raise d []) as [Hexn Hiff].
  split; assumption.
Qed.

End RunFacts2.

(* ================================================================= *)
(** ** [main]: the loop over the term list and the table *)

Section MainFacts.
Import PyStr PyDict Scraper Main Notions MoreNotions Examples MoreExamples.

Lemma process_row_blank (net : network) (row : list string) (st : run_state) :
  blank_row row = true -> process_row net row st = (st, Ok tt).
Proof.
  destruct st as [w sd]. destruct row as [|first cols]; simpl; [reflexivity|].
  now intros ->.
Qed.

Lemma process_row_term (net : network) (row : list string) (w : world)
      (sd : dict (dict PyFloat.float)) :
  blank_row row = false ->
  process_row net row (w, sd) =
  let search_term := strip (hd "" row) in
  let w1 := print ("Processing: " ++ search_term) w in
  match scrape_ebay_for_term net search_term [] with
  | (_, Raise e) => ((w1, sd), Raise e)
  | (month_price_dict, Ok _) =>
      match daily_averages month_price_dict with
      | Raise e => ((w1, sd), Raise e)
      | Ok averages => ((w1, set search_term averages sd), Ok tt)
      end
  end.
Proof.
  destruct row as [|first cols]; simpl; [discriminate|]. now intros ->.
Qed.

(** The loop over the rows leaves both files as they are. *)
Lemma rows_loop_files (net : network) (rows : list (list string))
      (w w' : world) (sd sd' : dict (dict PyFloat.float)) (r : result unit) :
  for_each (process_row net) rows (w, sd) = ((w', sd'), r) ->
  search_terms_csv w' = search_terms_csv w
  /\ average_prices_csv w' = average_prices_csv w.
Proof.
  intros E.
  assert (H : search_terms_csv
                (fst (fst (for_each (process_row net) rows (w, sd))))
              = search_terms_csv w
              /\ average_prices_csv
                   (fst (fst (for_each (process_row net) rows (w, sd))))
                 = average_prices_csv w).
  { apply (for_each_invariant (process_row net)
             (fun st => search_terms_csv (fst st) = search_terms_csv w
                        /\ average_prices_csv (fst st) = average_prices_csv w));
      [|split; reflexivity].
    intros row [w0 sd0] [H1 H2]. simpl in H1, H2.
    destruct (blank_row row) eqn:Hb.
    - rewrite process_row_blank by assumption. now split.
    - rewrite process_row_term by assumption. simpl.
      destruct (scrape_ebay_for_term net (strip (hd "" row)) []) as [d [[]|e]];
        [|now split].
      destruct (daily_averages d); now split. }
  now rewrite E in H.
Qed.

(** X15. [main] writes the table at the very end or not at all: when it
    ends with an exception the output file is as it was before the run (no
    part of a table is written), when it returns with the term list
    present the output file holds a table, and the term list itself is
    never changed. *)
Theorem main_writes_all_or_nothing (net : network) (w : world) :
  search_terms_csv (fst (main net w)) = search_terms_csv w
  /\ (forall e,
         snd (main net w) = Raise e ->
         average_prices_csv (fst (main net w)) = average_prices_csv w)
  /\ (snd (main net w) = Ok tt ->
      search_terms_csv w <> None ->
      exists summary_data,
        average_prices_csv (fst (main net w)) = Some (table summary_data)).
Proof.
  unfold main. destruct (search_terms_csv w) as [rows|] eqn:Hrows.
  - destruct (for_each (process_row net) rows (w, [])) as [[w1 sd] [[]|e]]
      eqn:E; apply rows_loop_files in E as [H1 H2]; simpl.
    + split; [congruence|]. split; [discriminate|]. eauto.
    + split; [congruence|]. split; [intros _ _; assumption | discriminate].
  - simpl. split; [assumption|]. split; [discriminate|]. congruence.
Qed.

Lemma main_writes_all_or_nothing_witness :
  snd (main net_unreachable one_term) = Raise ConnectionError
  /\ average_prices_csv (fst (main net_unreachable one_term))
     = average_prices_csv one_term.
Proof.
  assert (H : snd (main net_unreachable one_term) = Raise ConnectionError)
    by reflexivity.
  split; [exact H|].
  destruct (main_writes_all_or_nothing net_unreachable one_term)
    as (_ & Hraise & _).
  exact (Hraise ConnectionError H).
Defined.

(** The keys of a dict after assignments of new or present keys. *)
Lemma mem_in_list {V : Type} (k : string) (d : dict V) :
  mem k d = in_list k (keys d).
Proof.
  unfold mem, in_list, keys. induction d as [|[k' v] d IH]; simpl;
    [reflexivity|].
  destruct (String.eqb k k'); simpl; [reflexivity | exact IH].
Qed.

Lemma filter_comm (p q : string -> bool) (l : list string) :
  filter p (filter q l) = filter q (filter p l).
Proof.
  induction l as [|x l IH]; simpl; [reflexivity|].
  destruct (p x) eqn:Hp, (q x) eqn:Hq; simpl; rewrite ?Hp, ?Hq, IH; reflexivity.
Qed.

Lemma filter_all (q : string -> bool) (l : list string) :
  (forall y, In y l -> q y = true) -> filter q l = l.
Proof.
  induction l as [|x l IH]; simpl; intros H; [reflexivity|].
  rewrite (H x (or_introl eq_refl)), IH; auto.
Qed.

Lemma In_keep_first (y : string) (l : list string) :
  In y (keep_first l) <-> In y l.
Proof.
  induction l as [|x l IH]; simpl; [tauto|].
  rewrite filter_In, IH, negb_true_iff, String.eqb_neq.
  destruct (string_dec x y) as [->|Hne]; [tauto|].
  split; [tauto|]. intros [H|H]; [contradiction|]. right. split; congruence.
Qed.

Lemma filter_keep_first (p : string -> bool) (l : list string) :
  filter p (keep_first l) = keep_first (filter p l).
Proof.
  induction l as [|x l IH]; simpl; [reflexivity|].
  destruct (p x) eqn:Hx; simpl.
  - now rewrite filter_comm, IH.
  - rewrite filter_comm, IH. apply filter_all.
    intros y Hy. apply In_keep_first, filter_In in Hy as [_ Hy].
    apply negb_true_iff, String.eqb_neq. congruence.
Qed.

Lemma filter_both (p q : string -> bool) (l : list string) :
  filter p (filter q l) = filter (fun t => q t && p t) l.
Proof.
  induction l as [|x l IH]; simpl; [reflexivity|].
  destruct (q x); simpl; [destruct (p x)|]; now rewrite IH.
Qed.

Lemma first_keys_fold (l : list string) :
  forall acc,
    fold_left (fun ks t => if in_list t ks then ks else ks ++ [t]) l acc
    = acc ++ keep_first (filter (fun t => negb (in_list t acc)) l).
Proof.
  induction l as [|x l IH]; intros acc; simpl; [now rewrite app_nil_r|].
  destruct (in_list x acc) eqn:Hx; simpl; [apply IH|].
  rewrite IH, <- app_assoc. simpl. do 2 f_equal.
  rewrite filter_keep_first. f_equal.
  rewrite filter_both. apply filter_ext. intros t.
  unfold in_list. rewrite existsb_app. simpl.
  now rewrite orb_false_r, negb_orb.
Qed.

End MainFacts.

Section MainFacts2.
Import PyStr PyDict Scraper Main Notions MoreNotions Examples MoreExamples.

Lemma terms_of_cons (row : list string) (rows : list (list string)) :
  terms_of (row :: rows)
  = (if blank_row row then [] else [strip (hd "" row)]) ++ terms_of rows.
Proof. reflexivity. Qed.

(** What a loop over the rows that raises nothing has done: the lines it
    has printed, the keys of the summary, and the value of each key. *)
Lemma rows_loop_completed (net : network) (rows : list (list string)) :
  forall (w w' : world) (sd sd' : dict (dict PyFloat.float)),
    for_each (process_row net) rows (w, sd) = ((w', sd'), Ok tt) ->
    stdout w'
    = stdout w ++ map (fun t => ("Processing: " ++ t)%string) (terms_of rows)
    /\ keys sd'
       = fold_left (fun ks t => if in_list t ks then ks else ks ++ [t])
                   (terms_of rows) (keys sd)
    /\ (forall t,
           In t (terms_of rows) ->
           exists d averages,
             scrape_ebay_for_term net t [] = (d, Ok tt)
             /\ daily_averages d = Ok averages
             /\ get t sd' = Some averages)
    /\ (forall t, ~ In t (terms_of rows) -> get t sd' = get t sd).
Proof.
  induction rows as [|row rows IH]; intros w w' sd sd' H.
  - simpl in H. injection H as <- <-. simpl.
    rewrite app_nil_r. repeat split; auto. intros t [].
  - cbn [for_each] in H. rewrite terms_of_cons.
    destruct (blank_row row) eqn:Hb.
    + rewrite process_row_blank in H by assumption. simpl. now apply IH.
    + rewrite process_row_term in H by assumption. cbv zeta in H.
      set (t0 := strip (hd "" row)) in *.
      destruct (scrape_ebay_for_term net t0 []) as [d0 [[]|e]] eqn:Hrun;
        [|discriminate H].
      destruct (daily_averages d0) as [a0|e] eqn:Havg; [|discriminate H].
      apply IH in H as (Hout & Hkeys & Hin & Hout').
      split; [|split; [|split]].
      * rewrite Hout. simpl. now rewrite <- app_assoc.
      * rewrite Hkeys. simpl. rewrite keys_set, mem_in_list.
        reflexivity.
      * intros t [<-|Ht]; [|now apply Hin].
        destruct (in_dec string_dec t0 (terms_of rows)) as [Hyes|Hno];
          [now apply Hin|].
        exists d0, a0. rewrite (Hout' t0 Hno), get_set, String.eqb_refl. auto.
      * intros t Ht. simpl in Ht.
        rewrite Hout' by tauto. rewrite get_set.
        destruct (String.eqb_spec t t0) as [->|_]; [tauto | reflexivity].
Qed.

Lemma table_first_column (sd : dict (dict PyFloat.float)) :
  map (hd (Text "")) (table sd) = Text "CPU Name" :: map Text (keys sd).
Proof.
  unfold table, header_row, keys. simpl. f_equal.
  rewrite !map_map. apply map_ext. now intros [t a].
Qed.

(** X16. When [main] returns with the term list present, the table has
    one row for each search term, in the order in which the terms first
    appear in the list (a term that comes again gets no second row): the
    first column reads [CPU Name] and then these terms. *)
Theorem rows_follow_the_term_list (net : network) (w : world)
        (rows : list (list string)) :
  search_terms_csv w = Some rows ->
  snd (main net w) = Ok tt ->
  exists tbl,
    average_prices_csv (fst (main net w)) = Some tbl
    /\ map (hd (Text "")) tbl
       = Text "CPU Name" :: map Text (keep_first (terms_of rows)).
Proof.
  unfold main. intros -> Hok.
  destruct (for_each (process_row net) rows (w, [])) as [[w1 sd] [[]|e]] eqn:E;
    [|discriminate Hok].
  apply rows_loop_completed in E as (_ & Hkeys & _).
  exists (table sd). split; [reflexivity|].
  rewrite table_first_column, Hkeys, first_keys_fold. simpl.
  now rewrite filter_all by reflexivity.
Qed.

Lemma rows_follow_the_term_list_witness :
  search_terms_csv three_rows
  = Some [["Ryzen 5"]; []; ["  "; "x"]; ["i7"]; [" Ryzen 5 "]]
  /\ snd (main net_good three_rows) = Ok tt
  /\ exists tbl,
      average_prices_csv (fst (main net_good three_rows)) = Some tbl
      /\ map (hd (Text "")) tbl = [Text "CPU Name"; Text "Ryzen 5"; Text "i7"].
Proof.
  assert (H : snd (main net_good three_rows) = Ok tt)
    by (vm_compute; reflexivity).
  split; [reflexivity|]. split; [exact H|].
  exact (rows_follow_the_term_list net_good three_rows _ eq_refl H).
Defined.

(** X17. When [main] returns with the term list present, it has printed
    one [Processing] line for each row of the list that is not blank, in
    order and with the stripped term, and then the line that names the
    output file. *)
Theorem transcript_of_a_run (net : network) (w : world)
        (rows : list (list string)) :
  search_terms_csv w = Some rows ->
  snd (main net w) = Ok tt ->
  stdout (fst (main net w))
  = stdout w
    ++ map (fun t => ("Processing: " ++ t)%string) (terms_of rows)
    ++ ["Summary data written to Average_Prices_By_Day.csv"].
Proof.
  unfold main. intros -> Hok.
  destruct (for_each (process_row net) rows (w, [])) as [[w1 sd] [[]|e]] eqn:E;
    [|discriminate Hok].
  apply rows_loop_completed in E as (Hout & _). simpl.
  now rewrite Hout, <- app_assoc.
Qed.

Lemma transcript_of_a_run_witness :
  search_terms_csv three_rows
  = Some [["Ryzen 5"]; []; ["  "; "x"]; ["i7"]; [" Ryzen 5 "]]
  /\ snd (main net_good three_rows) = Ok tt
  /\ stdout (fst (main net_good three_rows))
     = ["Processing: Ryzen 5"; "Processing: i7"; "Processing: Ryzen 5";
        "Summary data written to Average_Prices_By_Day.csv"].
Proof.
  assert (H : snd (main net_good three_rows) = Ok tt)
    by (vm_compute; reflexivity).
  split; [reflexivity|]. split; [exact H|].
  exact (transcript_of_a_run net_good three_rows _ eq_refl H).
Defined.

(** X18. The terms do not influence one another: when [main] returns, the
    row of each search term holds the averages of that term's own run from
    the empty dict, under the date columns of the header, whatever the
    other terms of the list are. *)
Theorem each_term_on_its_own (net : network) (w : world)
        (rows : list (list string)) :
  search_terms_csv w = Some rows ->
  snd (main net w) = Ok tt ->
  exists dates tbl,
    average_prices_csv (fst (main net w)) = Some (header_row dates :: tbl)
    /\ forall t,
        In t (terms_of rows) ->
        exists d averages,
          scrape_ebay_for_term net t [] = (d, Ok tt)
          /\ daily_averages d = Ok averages
          /\ In (term_row dates (t, averages)) tbl.
Proof.
  unfold main. intros -> Hok.
  destruct (for_each (process_row net) rows (w, [])) as [[w1 sd] [[]|e]] eqn:E;
    [|discriminate Hok].
  apply rows_loop_completed in E as (_ & _ & Hin & _).
  exists (all_dates sd), (map (term_row (all_dates sd)) sd).
  split; [reflexivity|].
  intros t Ht. destruct (Hin t Ht) as (d & averages & Hrun & Havg & Hget).
  exists d, averages. repeat split; try assumption.
  apply in_map. now apply get_In.
Qed.

Lemma each_term_on_its_own_witness :
  search_terms_csv three_rows
  = Some [["Ryzen 5"]; []; ["  "; "x"]; ["i7"]; [" Ryzen 5 "]]
  /\ snd (main net_good three_rows) = Ok tt
  /\ exists dates tbl,
      average_prices_csv (fst (main net_good three_rows))
      = Some (header_row dates :: tbl)
      /\ forall t,
          In t ["Ryzen 5"; "i7"; "Ryzen 5"] ->
          exists d averages,
            scrape_ebay_for_term net_good t [] = (d, Ok tt)
            /\ daily_averages d = Ok averages
            /\ In (term_row dates (t, averages)) tbl.
Proof.
  assert (H : snd (main net_good three_rows) = Ok tt)
    by (vm_compute; reflexivity).
  split; [reflexivity|]. split; [exact H|].
  exact (each_term_on_its_own net_good three_rows _ eq_refl H).
Defined.

End MainFacts2.

Section TableFacts2.
Import PyStr PyDict Scraper Main Notions MoreNotions Examples MoreExamples.

Lemma process_row_with_term_list (net : network)
      (r : option (list (list string))) (row : list string) (w : world)
      (sd : dict (dict PyFloat.float)) :
  process_row net row (with_term_list r w, sd)
  = (with_term_list r (fst (fst (process_row net row (w, sd)))),
     snd (fst (process_row net row (w, sd))),
     snd (process_row net row (w, sd))).
Proof.
  destruct (blank_row row) eqn:Hb.
  - now rewrite !process_row_blank by assumption.
  - rewrite !process_row_term by assumption. cbv zeta.
    destruct (scrape_ebay_for_term net (strip (hd "" row)) []) as [d [[]|e]];
      [|reflexivity].
    now destruct (daily_averages d).
Qed.

Lemma rows_loop_with_term_list (net : network)
      (r : option (list (list string))) (rows : list (list string)) :
  forall (w : world) (sd : dict (dict PyFloat.float)),
    for_each (process_row net) rows (with_term_list r w, sd)
    = (with_term_list r (fst (fst (for_each (process_row net) rows (w, sd)))),
       snd (fst (for_each (process_row net) rows (w, sd))),
       snd (for_each (process_row net) rows (w, sd))).
Proof.
  induction rows as [|row rows IH]; intros w sd; cbn [for_each];
    [reflexivity|].
  rewrite process_row_with_term_list.
  destruct (process_row net row (w, sd)) as [[w1 sd1] [[]|e]]; simpl;
    [apply IH | reflexivity].
Qed.

Lemma rows_loop_skips_blank (net : network) (l1 l2 : list (list string))
      (row : list string) (st : run_state) :
  blank_row row = true ->
  for_each (process_row net) (l1 ++ row :: l2) st
  = for_each (process_row net) (l1 ++ l2) st.
Proof.
  intros Hb. rewrite !for_each_app.
  destruct (for_each (process_row net) l1 st) as [st1 [[]|e]]; [|reflexivity].
  cbn [for_each]. now rewrite process_row_blank.
Qed.

(** X19. Blank rows of the term list count for nothing: with an empty
    row, or a row whose first cell is empty once stripped, put anywhere
    into the list, [main] ends in the same way, writes the same table and
    prints the same lines. *)
Theorem blank_rows_ignored (net : network) (w : world)
        (l1 l2 : list (list string)) (row : list string) :
  blank_row row = true ->
  snd (main net (with_term_list (Some (l1 ++ row :: l2)) w))
  = snd (main net (with_term_list (Some (l1 ++ l2)) w))
  /\ average_prices_csv
       (fst (main net (with_term_list (Some (l1 ++ row :: l2)) w)))
     = average_prices_csv (fst (main net (with_term_list (Some (l1 ++ l2)) w)))
  /\ stdout (fst (main net (with_term_list (Some (l1 ++ row :: l2)) w)))
     = stdout (fst (main net (with_term_list (Some (l1 ++ l2)) w))).
Proof.
  intros Hb. unfold main. cbn [search_terms_csv with_term_list].
  change {| search_terms_csv := Some (l1 ++ row :: l2);
            average_prices_csv := average_prices_csv w;
            stdout := stdout w |}
    with (with_term_list (Some (l1 ++ row :: l2)) w).
  change {| search_terms_csv := Some (l1 ++ l2);
            average_prices_csv := average_prices_csv w;
            stdout := stdout w |}
    with (with_term_list (Some (l1 ++ l2)) w).
  rewrite !rows_loop_with_term_list.
  rewrite (fun st => rows_loop_skips_blank net l1 l2 row st Hb).
  destruct (for_each (process_row net) (l1 ++ l2) _) as [[w1 sd] [[]|e]];
    simpl; auto.
Qed.

Lemma blank_rows_ignored_witness :
  blank_row ["  "; "x"] = true
  /\ average_prices_csv
       (fst (main net_good
               (with_term_list (Some ([["Ryzen 5"]] ++ ["  "; "x"] :: [["i7"]]))
                               one_term)))
     = average_prices_csv
         (fst (main net_good
                 (with_term_list (Some ([["Ryzen 5"]] ++ [["i7"]])) one_term))).
Proof.
  split; [reflexivity|].
  destruct (blank_rows_ignored net_good one_term [["Ryzen 5"]] [["i7"]]
              ["  "; "x"] eq_refl) as (_ & H & _).
  exact H.
Defined.

(** X20. The table is rectangular: it has one row more than the summary
    has terms, and every row, the header too, has one cell more than there
    are date columns. *)
Theorem table_rectangular (summary_data : dict (dict PyFloat.float)) :
  List.length (table summary_data) = S (List.length summary_data)
  /\ forall row,
      In row (table summary_data) ->
      List.length row = S (List.length (all_dates summary_data)).
Proof.
  unfold table, header_row. simpl. split; [now rewrite length_map|].
  intros row [<-|H].
  - simpl. now rewrite length_map.
  - apply in_map_iff in H as ([t a] & <- & _). simpl. now rewrite length_map.
Qed.

(** X21. The cells of the table: the row of the [i]-th term starts with
    the term, and its cell under the [j]-th date column is that term's
    average for the date if it has one, and the empty string if not. *)
Theorem table_cell (summary_data : dict (dict PyFloat.float)) (i j : nat)
        (search_term : string) (averages : dict PyFloat.float)
        (date : string) :
  nth_error summary_data i = Some (search_term, averages) ->
  nth_error (all_dates summary_data) j = Some date ->
  exists row,
    nth_error (table summary_data) (S i) = Some row
    /\ nth_error row 0 = Some (Text search_term)
    /\ nth_error row (S j)
       = Some (match get date averages with
               | Some a => Number a
               | None => Text ""
               end).
Proof.
  intros Hi Hj. exists (term_row (all_dates summary_data) (search_term, averages)).
  split; [|split].
  - unfold table. cbn [nth_error]. now apply map_nth_error.
  - reflexivity.
  - cbn [term_row nth_error]. now rewrite (map_nth_error _ _ _ Hj).
Qed.

Lemma table_cell_witness :
  nth_error two_months 0
  = Some ("ryzen 5", [("Jan 5, 2024", PyFloat.lit "100.0");
                      ("Feb 1, 2024", PyFloat.lit "120.0")])
  /\ nth_error (all_dates two_months) 1 = Some "Jan 5, 2024"
  /\ exists row,
      nth_error (table two_months) 1 = Some row
      /\ nth_error row 0 = Some (Text "ryzen 5")
      /\ nth_error row 2 = Some (Number (PyFloat.lit "100.0")).
Proof.
  split; [reflexivity|]. split; [reflexivity|].
  exact (table_cell two_months 0 1 "ryzen 5" _ "Jan 5, 2024" eq_refl eq_refl).
Defined.

Lemma In_all_dates (sd : dict (dict PyFloat.float)) (date : string) :
  In date (all_dates sd) <-> has_date sd date.
Proof.
  unfold all_dates, has_date.
  rewrite <- (Permutation_in' eq_refl (sorted_perm _)).
  rewrite In_set_of, in_flat_map. unfold values. split.
  - intros (averages & Hin & Hdate). apply in_map_iff in Hin.
    destruct Hin as ([search_term a] & <- & Hin). eauto.
  - intros (search_term & averages & Hin & Hdate).
    exists averages. split; [|assumption].
    apply in_map_iff. now exists (search_term, averages).
Qed.

Lemma all_dates_ascending (sd : dict (dict PyFloat.float)) :
  ascending (all_dates sd).
Proof.
  apply Sorted_NoDup_ascending; [apply sorted_Sorted|].
  unfold all_dates. eapply Permutation_NoDup; [apply sorted_perm|].
  apply NoDup_set_of.
Qed.

Lemma below_irrefl (a : string) : ~ below a a.
Proof.
  unfold below. intros H. pose proof (ltb_asym a a H). congruence.
Qed.

(** Two ascending lists with the same elements are the same list. *)
Lemma ascending_unique (l1 : list string) :
  forall l2,
    ascending l1 -> ascending l2 ->
    (forall x, In x l1 <-> In x l2) -> l1 = l2.
Proof.
  unfold ascending.
  induction l1 as [|x1 l1 IH]; intros [|x2 l2] H1 H2 Hsame.
  - reflexivity.
  - destruct (proj2 (Hsame x2) (or_introl eq_refl)).
  - destruct (proj1 (Hsame x1) (or_introl eq_refl)).
  - apply StronglySorted_inv in H1 as [Hs1 Hall1].
    apply StronglySorted_inv in H2 as [Hs2 Hall2].
    rewrite Forall_forall in Hall1, Hall2.
    assert (Hx : x1 = x2).
    { destruct (proj1 (Hsame x1) (or_introl eq_refl)) as [E|Hin1]; [auto|].
      destruct (proj2 (Hsame x2) (or_introl eq_refl)) as [E|Hin2]; [auto|].
      pose proof (Hall2 _ Hin1) as Hb1. pose proof (Hall1 _ Hin2) as Hb2.
      unfold below in Hb1, Hb2. apply ltb_asym in Hb1. congruence. }
    subst x2. f_equal. apply IH; try assumption.
    intros x. split; intros Hin.
    + destruct (proj1 (Hsame x) (or_intror Hin)) as [<-|H]; [|assumption].
      now contradiction (below_irrefl x1 (Hall1 _ Hin)).
    + destruct (proj2 (Hsame x) (or_intror Hin)) as [<-|H]; [|assumption].
      now contradiction (below_irrefl x1 (Hall2 _ Hin)).
Qed.

(** X22. The date columns depend on the dates alone: two summaries with
    the same dates, whatever the order of their terms, the order of the
    dates within a term or the terms that share a date, give the same
    columns in the same order. *)
Theorem columns_depend_on_dates_alone
        (summary1 summary2 : dict (dict PyFloat.float)) :
  (forall date, has_date summary1 date <-> has_date summary2 date) ->
  all_dates summary1 = all_dates summary2.
Proof.
  intros H. apply ascending_unique; try apply all_dates_ascending.
  intros x. now rewrite !In_all_dates.
Qed.

End TableFacts2.

Section UrlFacts.
Import PyStr PyDict Scraper Main Notions MoreNotions Examples MoreExamples
       MoreExamples2.

Lemma columns_depend_on_dates_alone_witness :
  (forall date, has_date two_months date <-> has_date two_months_split date)
  /\ all_dates two_months = all_dates two_months_split.
Proof.
  assert (H : forall date,
             has_date two_months date <-> has_date two_months_split date).
  { intros date. rewrite <- !In_all_dates.
    change (all_dates two_months) with ["Feb 1, 2024"; "Jan 5, 2024"].
    change (all_dates two_months_split) with ["Feb 1, 2024"; "Jan 5, 2024"].
    tauto. }
  split; [exact H|].
  exact (columns_depend_on_dates_alone two_months two_months_split H).
Defined.

Lemma append_cancel_l (a x y : string) :
  (a ++ x)%string = (a ++ y)%string -> x = y.
Proof. induction a as [|c a IH]; simpl; [auto|]. intros [= H]. auto. Qed.

Lemma revapp_nonnil (d : Decimal.uint) :
  forall acc, acc <> Decimal.Nil -> Decimal.revapp d acc <> Decimal.Nil.
Proof. induction d; intros acc H; simpl; auto; apply IHd; discriminate. Qed.

Lemma little_succ_nonnil (d : Decimal.uint) :
  Decimal.Little.succ d <> Decimal.Nil.
Proof. destruct d; simpl; discriminate. Qed.

Lemma to_little_uint_nonnil (n : nat) :
  forall acc, acc <> Decimal.Nil -> Nat.to_little_uint n acc <> Decimal.Nil.
Proof.
  induction n as [|n IH]; intros acc H; simpl; [assumption|].
  apply IH, little_succ_nonnil.
Qed.

Lemma to_uint_nonnil (n : nat) : Nat.to_uint n <> Decimal.Nil.
Proof.
  unfold Nat.to_uint, Decimal.rev.
  pose proof (to_little_uint_nonnil n Decimal.zero) as H.
  destruct (Nat.to_little_uint n Decimal.zero);
    [now contradiction H | | | | | | | | | |];
    simpl; apply revapp_nonnil; discriminate.
Qed.

Lemma str_of_nat_inj (n m : nat) : str_of_nat n = str_of_nat m -> n = m.
Proof.
  unfold str_of_nat. intros H.
  apply (f_equal NilZero.uint_of_string) in H.
  rewrite !NilZero.usu in H by apply to_uint_nonnil.
  injection H as H. now apply DecimalNat.Unsigned.to_uint_inj.
Qed.

(** X23. Each page of a term has a URL of its own: [fetch_listings] asks
    for two different page numbers under two different URLs, so that no
    two pages of the range are the same request. *)
Theorem search_url_page_injective (search_keywords : list string)
        (p1 p2 : nat) :
  search_url search_keywords p1 = search_url search_keywords p2 -> p1 = p2.
Proof.
  unfold search_url. intros H.
  do 3 apply append_cancel_l in H. now apply str_of_nat_inj.
Qed.

Lemma search_url_page_injective_witness :
  search_url ryzen 7 = search_url ryzen (3 + 4)
  /\ 7 = 3 + 4.
Proof.
  split; [reflexivity|].
  exact (search_url_page_injective ryzen 7 (3 + 4) eq_refl).
Defined.

End UrlFacts.

Section MoreRunFacts.
Import PyStr PyDict Scraper Main Notions MoreNotions Examples MoreExamples.

(** X24. After any sequence of recordings, the list of a date is what the
    dict held for it before, followed by the prices recorded for that date,
    in their order; a date that was no key and got no price is still none.
    What is recorded for the other dates, and when, plays no part. *)
Theorem recorded_prices_by_date (obs : list (string * PyFloat.float))
        (d : price_dict) (date : string) :
  get date (record_all obs d)
  = match get date d, prices_on date obs with
    | None, [] => None
    | None, prices => Some prices
    | Some before, prices => Some (before ++ prices)
    end.
Proof. apply get_record_all. Qed.

Lemma complete_items_ok (search_keywords : list string) (items : list item) :
  (forall it, In it items -> required_present it = true) ->
  forall d, snd (for_each (scrape_item search_keywords) items d) = Ok tt.
Proof.
  induction items as [|it items IH]; intros H d; simpl; [reflexivity|].
  pose proof (complete_item_ok search_keywords it d
                (H it (or_introl eq_refl))) as Hok.
  destruct (scrape_item search_keywords it d) as [d' [[]|e]];
    simpl in Hok; [|discriminate Hok].
  apply IH. intros x Hx. apply H. now right.
Qed.

(** X25. When a listing without a required tag ends a page, the prices of
    the admitted listings before it are recorded all the same, and nothing
    of the listings after it is: the dict is the one given with the
    observations of the listings before the failing one. *)
Theorem page_cut_keeps_earlier_prices (search_keywords : list string)
        (before after : list item) (it : item) (d : price_dict) :
  (forall x, In x before -> required_present x = true) ->
  required_present it = false ->
  exists e,
    e <> ValueError
    /\ for_each (scrape_item search_keywords) (before ++ it :: after) d
       = (record_all (observations search_keywords before) d, Raise e).
Proof.
  intros Hbefore Hit. rewrite for_each_app.
  pose proof (complete_items_ok search_keywords before Hbefore d) as Hok.
  destruct (for_each (scrape_item search_keywords) before d) as [d1 r] eqn:E.
  simpl in Hok. subst r.
  apply scrape_items_record in E. subst d1.
  destruct (incomplete_item_raises search_keywords it
              (record_all (observations search_keywords before) d) Hit)
    as [e He].
  exists e. simpl. rewrite He. split; [|reflexivity].
  intros ->. unfold scrape_item in He.
  destruct (listing_observation search_keywords it) as [[[dt p]|]|e'];
    try discriminate He. destruct e'; discriminate He.
Qed.

Lemma page_cut_keeps_earlier_prices_witness :
  (forall x, In x [good] -> required_present x = true)
  /\ required_present (without_title good) = false
  /\ exists e,
      e <> ValueError
      /\ for_each (scrape_item ryzen) ([good] ++ without_title good :: [good]) []
         = ([("Jan 5, 2024", [PyFloat.lit "100.0"])], Raise e).
Proof.
  assert (H : forall x, In x [good] -> required_present x = true)
    by (intros x [<-|[]]; reflexivity).
  split; [exact H|]. split; [reflexivity|].
  exact (page_cut_keeps_earlier_prices ryzen [good] [good]
           (without_title good) [] H eq_refl).
Defined.

(** The summary and the outcome of the loop over the rows do not depend
    on the world it starts in. *)
Lemma rows_loop_world_indep (net : network) (rows : list (list string)) :
  forall (w w' : world) (sd : dict (dict PyFloat.float)),
    snd (fst (for_each (process_row net) rows (w, sd)))
    = snd (fst (for_each (process_row net) rows (w', sd)))
    /\ snd (for_each (process_row net) rows (w, sd))
       = snd (for_each (process_row net) rows (w', sd)).
Proof.
  induction rows as [|row rows IH]; intros w w' sd; cbn [for_each];
    [split; reflexivity|].
  destruct (blank_row row) eqn:Hb.
  - rewrite !process_row_blank by assumption. apply IH.
  - rewrite !process_row_term by assumption. cbv zeta.
    destruct (scrape_ebay_for_term net (strip (hd "" row)) []) as [d [[]|e]];
      [|split; reflexivity].
    destruct (daily_averages d); [apply IH | split; reflexivity].
Qed.

Lemma rows_loop_other_world (net : network) (rows : list (list string))
      (w w' wa : world) (sd sda : dict (dict PyFloat.float))
      (r : result unit) :
  for_each (process_row net) rows (w, sd) = ((wa, sda), r) ->
  exists wb, for_each (process_row net) rows (w', sd) = ((wb, sda), r).
Proof.
  intros E. destruct (rows_loop_world_indep net rows w w' sd) as [Hsd Hr].
  rewrite E in Hsd, Hr. cbn [fst snd] in Hsd, Hr.
  destruct (for_each (process_row net) rows (w', sd)) as [[wb sd'] r'].
  cbn [fst snd] in Hsd, Hr. subst sd' r'. now exists wb.
Qed.

Lemma main_of_loop (net : network) (w wa : world)
      (rows : list (list string)) (sd : dict (dict PyFloat.float))
      (r : result unit) :
  search_terms_csv w = Some rows ->
  for_each (process_row net) rows (w, []) = ((wa, sd), r) ->
  main net w
  = match r with
    | Ok _ =>
        (print ("Summary data written to " ++ output_file)
               (write_output (table sd) wa), Ok tt)
    | Raise e => (wa, Raise e)
    end.
Proof.
  intros Hrows E. unfold main. rewrite Hrows.
  match goal with
  | |- context [for_each ?b ?rs ?st] =>
      replace (for_each b rs st) with (wa, sd, r) by (symmetry; exact E)
  end.
  reflexivity.
Qed.

(** X26. What [main] writes depends on the term list and on the remote
    service only, not on what the output file held or on what was printed
    before: run again on the world that a run has left, with the same
    service, [main] ends in the same way and leaves the same output
    file. *)
Theorem rerun_gives_the_same_table (net : network) (w : world) :
  snd (main net (fst (main net w))) = snd (main net w)
  /\ average_prices_csv (fst (main net (fst (main net w))))
     = average_prices_csv (fst (main net w)).
Proof.
  destruct (search_terms_csv w) as [rows|] eqn:Hrows.
  - destruct (for_each (process_row net) rows (w, [])) as [[wa sd] r] eqn:E.
    rewrite (main_of_loop net w wa rows sd r Hrows E).
    pose proof E as Hfiles. apply rows_loop_files in Hfiles as [Hin Hout].
    destruct r as [[]|e]; cbn [fst snd].
    + set (w1 := print _ (write_output (table sd) wa)).
      assert (Hw1 : search_terms_csv w1 = Some rows)
        by (subst w1; simpl; congruence).
      destruct (rows_loop_other_world net rows w w1 wa [] sd (Ok tt) E)
        as [wb E1].
      rewrite (main_of_loop net w1 wb rows sd (Ok tt) Hw1 E1).
      split; reflexivity.
    + assert (Hwa : search_terms_csv wa = Some rows) by congruence.
      destruct (rows_loop_other_world net rows w wa wa [] sd (Raise e) E)
        as [wb E1].
      rewrite (main_of_loop net wa wb rows sd (Raise e) Hwa E1).
      apply rows_loop_files in E1 as [_ Hout'].
      split; [reflexivity | exact Hout'].
  - assert (Hmain : forall w0, search_terms_csv w0 = None ->
                               main net w0
                               = (print ("Error: '" ++ input_file
                                         ++ "' not found. Make sure the file exists.")
                                        w0, Ok tt)).
    { intros w0 H0. unfold main. now rewrite H0. }
    rewrite (Hmain w Hrows). cbn [fst snd].
    rewrite Hmain by exact Hrows. split; reflexivity.
Qed.

End MoreRunFacts.
